(** * Stock ledger, default-template rule and approval workflow

    A shallow embedding of [storage.ts] (class [DatabaseStorage]), of the
    table declarations of [schema.ts] it relies on, and of the route
    handlers that open and decide approval requests.

    The relational store is modelled as a record of tables; every table is
    a finite map from the [serial] primary key to its row together with the
    next value of the key's sequence.  The asynchronous methods of
    [DatabaseStorage] become computations of a state monad over that
    record, written in the order of the [await]s of the source.

    Columns no modelled method reads or branches on (contact fields,
    amounts, [createdAt] / [updatedAt] stamps) are left out of the rows.
    Integer columns are taken in [Z] and the methods always return: this
    is what the TypeScript computes as long as the store accepts every
    statement.  What the store refuses for the 32-bit range of an
    [integer] column is added, for the methods of the stock ledger, in
    the part on the statements the store refuses: there a call may raise
    after some of its statements were carried out.  The [UNIQUE]
    constraints (on [products.sku], and on columns that are left out) are
    not modelled: [createProduct] with a sku that is already stored is
    refused by the store and stores a second row here.  Request
    validation, session checks and change notifications of the routes are
    not modelled either. *)

From stdpp Require Import gmap strings list fin_maps.
From Stdlib Require Import ZArith Lia.
From Stdlib.Strings Require Byte.

Local Open Scope Z_scope.

(** ** Tables *)

Record Table (A : Type) := mkTable { rows : gmap Z A; id_seq : Z }.
Arguments mkTable {A} _ _.
Arguments rows {A} _.
Arguments id_seq {A} _.

Definition empty_table {A} : Table A := mkTable ∅ 1.

(** ** Rows (schema.ts) *)

(** [products]: [stock] is [integer NOT NULL], [minStock] is a nullable
    [integer] (default 10), [isActive] is the soft-delete flag. *)
Record Product := mkProduct {
  sku : string;
  stock : Z;
  minStock : option Z;
  product_isActive : bool }.

(** What [insertProductSchema] accepts: the key [minStock] may be absent
    ([None]), and when present it may be [null] ([Some None]). *)
Record InsertProduct := mkInsertProduct {
  ip_sku : string;
  ip_stock : Z;
  ip_minStock : option (option Z) }.

(** [vendors], [distributors], [retailers], [billedEntities] and
    [suppliers] share the two flags the workflow touches. *)
Record Partner := mkPartner {
  partner_name : string;
  isApproved : bool;
  isActive : bool }.

(** An element of the [items] JSON array of a purchase or a sale.  A key
    that is absent reads as [undefined], modelled by [None]. *)
Record Item := mkItem {
  productId : option Z;
  quantity : option Z }.

(** The [jsonb] column [items]: an array of line items, or any other JSON
    value (for which [Array.isArray] is false). *)
Inductive Items :=
| ItemArray (items : list Item)
| NotArray.

Record Purchase := mkPurchase {
  supplierId : Z;
  purchase_items : Items }.

Record Sale := mkSale {
  retailerId : Z;
  sale_items : Items }.

Record InvoiceTemplate := mkInvoiceTemplate {
  name : string;
  template : string;
  isDefault : bool }.

(** [InsertInvoiceTemplate]: [isDefault] has a column default and is
    optional in the insert schema. *)
Record InsertInvoiceTemplate := mkInsertInvoiceTemplate {
  it_name : string;
  it_template : string;
  it_isDefault : option bool }.

(** [Partial<InsertInvoiceTemplate>]. *)
Record InvoiceTemplateUpdate := mkInvoiceTemplateUpdate {
  upd_name : option string;
  upd_template : option string;
  upd_isDefault : option bool }.

Record ApprovalRequest := mkApprovalRequest {
  entityType : string;
  entityId : Z;
  requestedBy : Z;
  status : string;
  notes : option string }.

(** The object handed to [createApprovalRequest].  Its static type has no
    [status] key; [ins_status] stands for a [status] key that is present
    at run time all the same. *)
Record InsertApprovalRequest := mkInsertApprovalRequest {
  ins_entityType : string;
  ins_entityId : Z;
  ins_requestedBy : Z;
  ins_notes : option string;
  ins_status : option string }.

(** [Partial<ApprovalRequest>] without the stamps and without [id].  An
    absent key is [None]; [notes] is nullable, so a present key carries
    an [option].  The type has an [id] key as well, which no caller in
    the repository passes; a call that passed it would move the request
    to another key.  The properties of [updateApprovalRequest] below are
    about calls without that key, and those of arbitrary sequences of
    storage calls say nothing of the approval requests. *)
Record ApprovalRequestUpdate := mkApprovalRequestUpdate {
  au_entityType : option string;
  au_entityId : option Z;
  au_requestedBy : option Z;
  au_status : option string;
  au_notes : option (option string) }.

(** ** The database *)

Record Db := mkDb {
  products : Table Product;
  suppliers : Table Partner;
  vendors : Table Partner;
  distributors : Table Partner;
  retailers : Table Partner;
  billedEntities : Table Partner;
  purchases : Table Purchase;
  sales : Table Sale;
  invoiceTemplates : Table InvoiceTemplate;
  approvalRequests : Table ApprovalRequest }.

Definition empty_db : Db :=
  mkDb empty_table empty_table empty_table empty_table empty_table
       empty_table empty_table empty_table empty_table empty_table.

Definition set_products (t : Table Product) (db : Db) : Db :=
  mkDb t (suppliers db) (vendors db) (distributors db) (retailers db)
       (billedEntities db) (purchases db) (sales db) (invoiceTemplates db)
       (approvalRequests db).
Definition set_suppliers (t : Table Partner) (db : Db) : Db :=
  mkDb (products db) t (vendors db) (distributors db) (retailers db)
       (billedEntities db) (purchases db) (sales db) (invoiceTemplates db)
       (approvalRequests db).
Definition set_vendors (t : Table Partner) (db : Db) : Db :=
  mkDb (products db) (suppliers db) t (distributors db) (retailers db)
       (billedEntities db) (purchases db) (sales db) (invoiceTemplates db)
       (approvalRequests db).
Definition set_distributors (t : Table Partner) (db : Db) : Db :=
  mkDb (products db) (suppliers db) (vendors db) t (retailers db)
       (billedEntities db) (purchases db) (sales db) (invoiceTemplates db)
       (approvalRequests db).
Definition set_retailers (t : Table Partner) (db : Db) : Db :=
  mkDb (products db) (suppliers db) (vendors db) (distributors db) t
       (billedEntities db) (purchases db) (sales db) (invoiceTemplates db)
       (approvalRequests db).
Definition set_billedEntities (t : Table Partner) (db : Db) : Db :=
  mkDb (products db) (suppliers db) (vendors db) (distributors db)
       (retailers db) t (purchases db) (sales db) (invoiceTemplates db)
       (approvalRequests db).
Definition set_purchases (t : Table Purchase) (db : Db) : Db :=
  mkDb (products db) (suppliers db) (vendors db) (distributors db)
       (retailers db) (billedEntities db) t (sales db) (invoiceTemplates db)
       (approvalRequests db).
Definition set_sales (t : Table Sale) (db : Db) : Db :=
  mkDb (products db) (suppliers db) (vendors db) (distributors db)
       (retailers db) (billedEntities db) (purchases db) t
       (invoiceTemplates db) (approvalRequests db).
Definition set_invoiceTemplates (t : Table InvoiceTemplate) (db : Db) : Db :=
  mkDb (products db) (suppliers db) (vendors db) (distributors db)
       (retailers db) (billedEntities db) (purchases db) (sales db) t
       (approvalRequests db).
Definition set_approvalRequests (t : Table ApprovalRequest) (db : Db) : Db :=
  mkDb (products db) (suppliers db) (vendors db) (distributors db)
       (retailers db) (billedEntities db) (purchases db) (sales db)
       (invoiceTemplates db) t.

(** A table of the schema, as the query builder addresses it: how to read
    it from the database and how to write it back. *)
Record TableRef (A : Type) := mkTableRef {
  tbl_get : Db → Table A;
  tbl_set : Table A → Db → Db }.
Arguments tbl_get {A} _ _.
Arguments tbl_set {A} _ _ _.

Definition Products := mkTableRef Product products set_products.
Definition Suppliers := mkTableRef Partner suppliers set_suppliers.
Definition Vendors := mkTableRef Partner vendors set_vendors.
Definition Distributors := mkTableRef Partner distributors set_distributors.
Definition Retailers := mkTableRef Partner retailers set_retailers.
Definition BilledEntities :=
  mkTableRef Partner billedEntities set_billedEntities.
Definition Purchases := mkTableRef Purchase purchases set_purchases.
Definition Sales := mkTableRef Sale sales set_sales.
Definition InvoiceTemplates :=
  mkTableRef InvoiceTemplate invoiceTemplates set_invoiceTemplates.
Definition ApprovalRequests :=
  mkTableRef ApprovalRequest approvalRequests set_approvalRequests.

(** ** Asynchronous methods as state-passing computations *)

Definition Task (A : Type) : Type := Db → A * Db.

#[global] Instance Task_ret : MRet Task := λ A a db, (a, db).
#[global] Instance Task_bind : MBind Task :=
  λ A B k m db, let r := m db in k r.1 r.2.

(** [for (const x of l) { await body(x) }] *)
Fixpoint for_of {A} (l : list A) (body : A → Task unit) : Task unit :=
  match l with
  | [] => mret ()
  | x :: l' => body x ;; for_of l' body
  end.

(** ** The query builder *)

Section queries.
Context {A : Type} (T : TableRef A).

(** [db.select().from(T).where(eq(T.id, id))], destructured as [[row]]:
    the key is primary, so there is at most one row. *)
Definition select_by_id (id : Z) : Task (option A) :=
  λ db, (rows (tbl_get T db) !! id, db).

(** [db.select().from(T).where(cond)] *)
Definition select_where (cond : A → bool) : Task (gmap Z A) :=
  λ db, (filter (λ kv, cond kv.2 = true) (rows (tbl_get T db)), db).

(** [db.insert(T).values(v).returning()]: the key is drawn from the
    sequence. *)
Definition insert_returning (v : A) : Task (Z * A) :=
  λ db, let t := tbl_get T db in
        let id := id_seq t in
        ((id, v), tbl_set T (mkTable (<[id := v]> (rows t)) (id + 1)) db).

(** [db.update(T).set(f).where(eq(T.id, id)).returning()], destructured
    as [[row]]. *)
Definition update_by_id (f : A → A) (id : Z) : Task (option A) :=
  λ db, let t := tbl_get T db in
        match rows t !! id with
        | Some r =>
            (Some (f r), tbl_set T (mkTable (<[id := f r]> (rows t)) (id_seq t)) db)
        | None => (None, db)
        end.

(** [db.update(T).set(f).where(cond)] *)
Definition update_where (f : A → A) (cond : A → bool) : Task unit :=
  λ db, let t := tbl_get T db in
        ((), tbl_set T
               (mkTable ((λ r, if cond r then f r else r) <$> rows t) (id_seq t))
               db).

(** [db.delete(T).where(eq(T.id, id)).returning()]: the deleted rows. *)
Definition delete_by_id (id : Z) : Task (list A) :=
  λ db, let t := tbl_get T db in
        match rows t !! id with
        | Some r => ([r], tbl_set T (mkTable (delete id (rows t)) (id_seq t)) db)
        | None => ([], db)
        end.
End queries.

(** ** JavaScript truthiness of a numeric field *)

(** [!!v] for [v] a number or [undefined]: zero and [undefined] are
    falsy. *)
Definition truthy (v : option Z) : bool :=
  match v with
  | Some n => negb (n =? 0)
  | None => false
  end.

(** The number held by a field that passed the truthiness test. *)
Definition num (v : option Z) : Z := default 0 v.

(** ** Product operations *)

Definition set_stock (n : Z) (p : Product) : Product :=
  mkProduct (sku p) n (minStock p) (product_isActive p).

Definition getProduct (id : Z) : Task (option Product) :=
  select_by_id Products id.

Definition createProduct (insertProduct : InsertProduct) : Task (Z * Product) :=
  insert_returning Products
    (mkProduct (ip_sku insertProduct) (ip_stock insertProduct)
               (default (Some 10) (ip_minStock insertProduct)) true).

Definition getLowStockProducts (threshold : option Z) : Task (gmap Z Product) :=
  if truthy threshold then
    select_where Products
      (λ p, product_isActive p && (stock p <=? num threshold))
  else
    select_where Products
      (λ p, product_isActive p &&
            match minStock p with
            | Some m => stock p <=? m
            | None => false
            end).

Definition updateProductStock (id change : Z) : Task (option Product) :=
  update_by_id Products (λ p, set_stock (stock p + change) p) id.

(** ** Purchase operations *)

Definition getPurchase (id : Z) : Task (option Purchase) :=
  select_by_id Purchases id.

Definition createPurchase (insertPurchase : Purchase) : Task (Z * Purchase) :=
  purchase ← insert_returning Purchases insertPurchase;
  match purchase_items purchase.2 with
  | ItemArray items =>
      for_of items (λ item,
        if truthy (productId item) && truthy (quantity item)
        then updateProductStock (num (productId item)) (num (quantity item)) ;;
             mret ()
        else mret ())
  | NotArray => mret ()
  end ;;
  mret purchase.

Definition deletePurchase (id : Z) : Task bool :=
  purchase ← select_by_id Purchases id;
  match purchase with
  | None => mret false
  | Some purchase =>
      match purchase_items purchase with
      | ItemArray items =>
          for_of items (λ item,
            if truthy (productId item) && truthy (quantity item)
            then updateProductStock (num (productId item))
                                    (- num (quantity item)) ;;
                 mret ()
            else mret ())
      | NotArray => mret ()
      end ;;
      result ← delete_by_id Purchases id;
      mret (bool_decide (0 < length result)%nat)
  end.

(** ** Sale operations *)

Definition getSale (id : Z) : Task (option Sale) :=
  select_by_id Sales id.

Definition createSale (insertSale : Sale) : Task (Z * Sale) :=
  sale ← insert_returning Sales insertSale;
  match sale_items sale.2 with
  | ItemArray items =>
      for_of items (λ item,
        if truthy (productId item) && truthy (quantity item)
        then updateProductStock (num (productId item))
                                (- num (quantity item)) ;;
             mret ()
        else mret ())
  | NotArray => mret ()
  end ;;
  mret sale.

Definition deleteSale (id : Z) : Task bool :=
  sale ← select_by_id Sales id;
  match sale with
  | None => mret false
  | Some sale =>
      match sale_items sale with
      | ItemArray items =>
          for_of items (λ item,
            if truthy (productId item) && truthy (quantity item)
            then updateProductStock (num (productId item)) (num (quantity item)) ;;
                 mret ()
            else mret ())
      | NotArray => mret ()
      end ;;
      result ← delete_by_id Sales id;
      mret (bool_decide (0 < length result)%nat)
  end.

(** ** Invoice template operations *)

(** [!!v] for [v] a boolean or [undefined]. *)
Definition truthy_flag (v : option bool) : bool := default false v.

Definition set_isDefault (b : bool) (t : InvoiceTemplate) : InvoiceTemplate :=
  mkInvoiceTemplate (name t) (template t) b.

(** [.set({ ...templateUpdate, updatedAt })]: absent keys keep the stored
    value. *)
Definition merge_template (u : InvoiceTemplateUpdate) (t : InvoiceTemplate)
  : InvoiceTemplate :=
  mkInvoiceTemplate (default (name t) (upd_name u))
                    (default (template t) (upd_template u))
                    (default (isDefault t) (upd_isDefault u)).

Definition getInvoiceTemplate (id : Z) : Task (option InvoiceTemplate) :=
  select_by_id InvoiceTemplates id.

Definition createInvoiceTemplate (insertTemplate : InsertInvoiceTemplate)
  : Task (Z * InvoiceTemplate) :=
  let isDefault' := truthy_flag (it_isDefault insertTemplate) in
  (if isDefault'
   then update_where InvoiceTemplates (set_isDefault false) isDefault
   else mret ()) ;;
  insert_returning InvoiceTemplates
    (mkInvoiceTemplate (it_name insertTemplate) (it_template insertTemplate)
                       isDefault').

Definition updateInvoiceTemplate (id : Z) (templateUpdate : InvoiceTemplateUpdate)
  : Task (option InvoiceTemplate) :=
  let isDefault' := truthy_flag (upd_isDefault templateUpdate) in
  (if isDefault'
   then update_where InvoiceTemplates (set_isDefault false) isDefault
   else mret ()) ;;
  update_by_id InvoiceTemplates (merge_template templateUpdate) id.

(** The first row of the selection, if any. *)
Definition getDefaultInvoiceTemplate : Task (option (Z * InvoiceTemplate)) :=
  res ← select_where InvoiceTemplates isDefault;
  mret (head (map_to_list res)).

Definition getAllInvoiceTemplates : Task (gmap Z InvoiceTemplate) :=
  select_where InvoiceTemplates (λ _, true).

(** ** Partner entities *)

Definition set_isApproved (b : bool) (e : Partner) : Partner :=
  mkPartner (partner_name e) b (isActive e).

Definition createSupplier (companyName : string) : Task (Z * Partner) :=
  insert_returning Suppliers (mkPartner companyName false true).

Definition createVendor (name : string) : Task (Z * Partner) :=
  insert_returning Vendors (mkPartner name false true).

(** ** Approval request operations *)

Definition set_status (s : string) (r : ApprovalRequest) : ApprovalRequest :=
  mkApprovalRequest (entityType r) (entityId r) (requestedBy r) s (notes r).

(** [.set({ ...requestUpdate, updatedAt })] *)
Definition merge_request (u : ApprovalRequestUpdate) (r : ApprovalRequest)
  : ApprovalRequest :=
  mkApprovalRequest (default (entityType r) (au_entityType u))
                    (default (entityId r) (au_entityId u))
                    (default (requestedBy r) (au_requestedBy u))
                    (default (status r) (au_status u))
                    (default (notes r) (au_notes u)).

(** [u === s] for [u] a string or [undefined]. *)
Definition is_string (u : option string) (s : string) : bool :=
  match u with
  | Some x => String.eqb x s
  | None => false
  end.

Definition getApprovalRequest (id : Z) : Task (option ApprovalRequest) :=
  select_by_id ApprovalRequests id.

(** [{ ...insertRequest, status: "pending", createdAt, updatedAt }]: the
    spread comes first, the literal [status] key after it. *)
Definition createApprovalRequest (insertRequest : InsertApprovalRequest)
  : Task (Z * ApprovalRequest) :=
  let spread :=
    mkApprovalRequest (ins_entityType insertRequest)
                      (ins_entityId insertRequest)
                      (ins_requestedBy insertRequest)
                      (default "pending"%string (ins_status insertRequest))
                      (ins_notes insertRequest) in
  insert_returning ApprovalRequests (set_status "pending" spread).

Definition updateApprovalRequest (id : Z) (requestUpdate : ApprovalRequestUpdate)
  : Task (option ApprovalRequest) :=
  request ← update_by_id ApprovalRequests (merge_request requestUpdate) id;
  match request with
  | Some req =>
      if is_string (au_status requestUpdate) "approved"
         || is_string (au_status requestUpdate) "rejected"
      then
        if is_string (au_status requestUpdate) "approved" then
          if String.eqb (entityType req) "vendor" then
            update_by_id Vendors (set_isApproved true) (entityId req) ;; mret ()
          else if String.eqb (entityType req) "distributor" then
            update_by_id Distributors (set_isApproved true) (entityId req) ;; mret ()
          else if String.eqb (entityType req) "retailer" then
            update_by_id Retailers (set_isApproved true) (entityId req) ;; mret ()
          else if String.eqb (entityType req) "billedEntity" then
            update_by_id BilledEntities (set_isApproved true) (entityId req) ;; mret ()
          else mret ()
        else mret ()
      else mret ()
  | None => mret ()
  end ;;
  mret request.

Definition getPendingApprovalRequests : Task (gmap Z ApprovalRequest) :=
  select_where ApprovalRequests (λ r, String.eqb (status r) "pending").

(** ** Route handlers *)

Inductive Response (A : Type) :=
| Json (code : Z) (body : A)
| Failure (code : Z).
Arguments Json {A} _ _.
Arguments Failure {A} _.

(** [PUT /approval-requests/:id] with body [{ status, notes }]: the
    decision on a request. *)
Definition putApprovalRequest (id : Z) (status : option string) (notes : option (option string))
  : Task (Response ApprovalRequest) :=
  if negb (is_string status "approved" || is_string status "rejected")
  then mret (Failure 400)
  else
    request ← updateApprovalRequest id
                (mkApprovalRequestUpdate None None None status notes);
    match request with
    | None => mret (Failure 404)
    | Some request => mret (Json 200 request)
    end.

(** [POST /vendors] and [POST /suppliers]: the entity is created, then an
    approval request is opened for it when the session carries a user
    with a truthy id. *)
Definition postVendors (user : option (Z * string)) (name : string)
  : Task (Response (Z * Partner)) :=
  vendor ← createVendor name;
  match user with
  | Some (uid, fullName) =>
      if truthy (Some uid) then
        createApprovalRequest
          (mkInsertApprovalRequest "vendor" vendor.1 uid
             (Some ("New vendor " +:+ partner_name vendor.2 +:+ " added by "
                    +:+ fullName)) None) ;;
        mret ()
      else mret ()
  | None => mret ()
  end ;;
  mret (Json 201 vendor).

Definition postSuppliers (user : option (Z * string)) (companyName : string)
  : Task (Response (Z * Partner)) :=
  supplier ← createSupplier companyName;
  match user with
  | Some (uid, fullName) =>
      if truthy (Some uid) then
        createApprovalRequest
          (mkInsertApprovalRequest "supplier" supplier.1 uid
             (Some ("New supplier " +:+ partner_name supplier.2 +:+ " added by "
                    +:+ fullName)) None) ;;
        mret ()
      else mret ()
  | None => mret ()
  end ;;
  mret (Json 201 supplier).

(** The columns [createInsertSchema(approvalRequests)] starts from, and
    the keys [insertApprovalRequestSchema] omits from them. *)
Definition approvalRequests_columns : list string :=
  ["id"; "entityType"; "entityId"; "requestedBy"; "status"; "notes";
   "createdAt"; "updatedAt"]%string.

Definition insertApprovalRequestSchema_omit : list string :=
  ["id"; "createdAt"; "updatedAt"; "status"]%string.

Definition insertApprovalRequestSchema : list string :=
  filter (λ c, c ∉ insertApprovalRequestSchema_omit) approvalRequests_columns.

(** * The remaining storage methods and routes *)

(** [!!v] for [v] a row or [undefined]. *)
Definition defined {A} (v : option A) : bool :=
  match v with
  | Some _ => true
  | None => false
  end.

(** ** Products *)

(** [Partial<InsertProduct>]: [isActive] is not a key of the insert
    schema. *)
Record ProductUpdate := mkProductUpdate {
  pu_sku : option string;
  pu_stock : option Z;
  pu_minStock : option (option Z) }.

Definition merge_product (u : ProductUpdate) (p : Product) : Product :=
  mkProduct (default (sku p) (pu_sku u))
            (default (stock p) (pu_stock u))
            (default (minStock p) (pu_minStock u))
            (product_isActive p).

Definition set_product_isActive (b : bool) (p : Product) : Product :=
  mkProduct (sku p) (stock p) (minStock p) b.

(** The first row with the given [sku], if any. *)
Definition getProductBySku (s : string) : Task (option (Z * Product)) :=
  res ← select_where Products (λ p, String.eqb (sku p) s);
  mret (head (map_to_list res)).

Definition updateProduct (id : Z) (productUpdate : ProductUpdate)
  : Task (option Product) :=
  update_by_id Products (merge_product productUpdate) id.

Definition deleteProduct (id : Z) : Task bool :=
  product ← update_by_id Products (set_product_isActive false) id;
  mret (defined product).

Definition getAllProducts : Task (gmap Z Product) :=
  select_where Products product_isActive.

(** ** Partner entities *)

(** [Partial<InsertVendor>] and its four siblings: neither [isApproved]
    nor [isActive] is a key of the insert schemas. *)
Record PartnerUpdate := mkPartnerUpdate {
  eu_name : option string }.

Definition merge_partner (u : PartnerUpdate) (e : Partner) : Partner :=
  mkPartner (default (partner_name e) (eu_name u)) (isApproved e) (isActive e).

Definition set_isActive (b : bool) (e : Partner) : Partner :=
  mkPartner (partner_name e) (isApproved e) b.

Definition getSupplier (id : Z) : Task (option Partner) :=
  select_by_id Suppliers id.

Definition updateSupplier (id : Z) (supplierUpdate : PartnerUpdate)
  : Task (option Partner) :=
  update_by_id Suppliers (merge_partner supplierUpdate) id.

Definition deleteSupplier (id : Z) : Task bool :=
  supplier ← update_by_id Suppliers (set_isActive false) id;
  mret (defined supplier).

Definition getAllSuppliers : Task (gmap Z Partner) :=
  select_where Suppliers isActive.

Definition getVendor (id : Z) : Task (option Partner) :=
  select_by_id Vendors id.

Definition updateVendor (id : Z) (vendorUpdate : PartnerUpdate)
  : Task (option Partner) :=
  update_by_id Vendors (merge_partner vendorUpdate) id.

Definition getAllVendors : Task (gmap Z Partner) :=
  select_where Vendors isActive.

Definition getApprovedVendors : Task (gmap Z Partner) :=
  select_where Vendors (λ e, isActive e && isApproved e).

Definition getDistributor (id : Z) : Task (option Partner) :=
  select_by_id Distributors id.

Definition createDistributor (name : string) : Task (Z * Partner) :=
  insert_returning Distributors (mkPartner name false true).

Definition updateDistributor (id : Z) (distributorUpdate : PartnerUpdate)
  : Task (option Partner) :=
  update_by_id Distributors (merge_partner distributorUpdate) id.

Definition getAllDistributors : Task (gmap Z Partner) :=
  select_where Distributors isActive.

Definition getApprovedDistributors : Task (gmap Z Partner) :=
  select_where Distributors (λ e, isActive e && isApproved e).

Definition getRetailer (id : Z) : Task (option Partner) :=
  select_by_id Retailers id.

Definition createRetailer (storeName : string) : Task (Z * Partner) :=
  insert_returning Retailers (mkPartner storeName false true).

Definition updateRetailer (id : Z) (retailerUpdate : PartnerUpdate)
  : Task (option Partner) :=
  update_by_id Retailers (merge_partner retailerUpdate) id.

Definition getAllRetailers : Task (gmap Z Partner) :=
  select_where Retailers isActive.

Definition getApprovedRetailers : Task (gmap Z Partner) :=
  select_where Retailers (λ e, isActive e && isApproved e).

Definition getBilledEntity (id : Z) : Task (option Partner) :=
  select_by_id BilledEntities id.

Definition createBilledEntity (name : string) : Task (Z * Partner) :=
  insert_returning BilledEntities (mkPartner name false true).

Definition updateBilledEntity (id : Z) (entityUpdate : PartnerUpdate)
  : Task (option Partner) :=
  update_by_id BilledEntities (merge_partner entityUpdate) id.

Definition getAllBilledEntities : Task (gmap Z Partner) :=
  select_where BilledEntities isActive.

Definition getApprovedBilledEntities : Task (gmap Z Partner) :=
  select_where BilledEntities (λ e, isActive e && isApproved e).

(** ** Purchases and sales *)

(** [Partial<InsertPurchase>] and [Partial<InsertSale>]. *)
Record PurchaseUpdate := mkPurchaseUpdate {
  pcu_supplierId : option Z;
  pcu_items : option Items }.

Record SaleUpdate := mkSaleUpdate {
  slu_retailerId : option Z;
  slu_items : option Items }.

Definition merge_purchase (u : PurchaseUpdate) (p : Purchase) : Purchase :=
  mkPurchase (default (supplierId p) (pcu_supplierId u))
             (default (purchase_items p) (pcu_items u)).

Definition merge_sale (u : SaleUpdate) (s : Sale) : Sale :=
  mkSale (default (retailerId s) (slu_retailerId u))
         (default (sale_items s) (slu_items u)).

Definition updatePurchase (id : Z) (purchaseUpdate : PurchaseUpdate)
  : Task (option Purchase) :=
  update_by_id Purchases (merge_purchase purchaseUpdate) id.

Definition updateSale (id : Z) (saleUpdate : SaleUpdate) : Task (option Sale) :=
  update_by_id Sales (merge_sale saleUpdate) id.

(** ** Further route handlers *)

(** [DELETE /products/:id]: 404 when the key has no row, otherwise the
    soft delete and an empty 204 answer. *)
Definition deleteProductsId (id : Z) : Task (Response unit) :=
  product ← getProduct id;
  match product with
  | None => mret (Failure 404)
  | Some _ => deleteProduct id ;; mret (Json 204 ())
  end.

(** [POST /distributors], [POST /retailers], [POST /billed-entities]. *)
Definition postDistributors (user : option (Z * string)) (name : string)
  : Task (Response (Z * Partner)) :=
  distributor ← createDistributor name;
  match user with
  | Some (uid, fullName) =>
      if truthy (Some uid) then
        createApprovalRequest
          (mkInsertApprovalRequest "distributor" distributor.1 uid
             (Some ("New distributor " +:+ partner_name distributor.2
                    +:+ " added by " +:+ fullName)) None) ;;
        mret ()
      else mret ()
  | None => mret ()
  end ;;
  mret (Json 201 distributor).

Definition postRetailers (user : option (Z * string)) (storeName : string)
  : Task (Response (Z * Partner)) :=
  retailer ← createRetailer storeName;
  match user with
  | Some (uid, fullName) =>
      if truthy (Some uid) then
        createApprovalRequest
          (mkInsertApprovalRequest "retailer" retailer.1 uid
             (Some ("New retailer " +:+ partner_name retailer.2
                    +:+ " added by " +:+ fullName)) None) ;;
        mret ()
      else mret ()
  | None => mret ()
  end ;;
  mret (Json 201 retailer).

Definition postBilledEntities (user : option (Z * string)) (name : string)
  : Task (Response (Z * Partner)) :=
  entity ← createBilledEntity name;
  match user with
  | Some (uid, fullName) =>
      if truthy (Some uid) then
        createApprovalRequest
          (mkInsertApprovalRequest "billedEntity" entity.1 uid
             (Some ("New billed entity " +:+ partner_name entity.2
                    +:+ " added by " +:+ fullName)) None) ;;
        mret ()
      else mret ()
  | None => mret ()
  end ;;
  mret (Json 201 entity).

(** ** Sequences of storage calls *)

(** One call of a method of [DatabaseStorage] that writes to the store. *)
Inductive StorageOp :=
| OpCreateProduct (insertProduct : InsertProduct)
| OpUpdateProduct (id : Z) (productUpdate : ProductUpdate)
| OpDeleteProduct (id : Z)
| OpUpdateProductStock (id change : Z)
| OpCreateSupplier (companyName : string)
| OpUpdateSupplier (id : Z) (supplierUpdate : PartnerUpdate)
| OpDeleteSupplier (id : Z)
| OpCreateVendor (name : string)
| OpUpdateVendor (id : Z) (vendorUpdate : PartnerUpdate)
| OpCreateDistributor (name : string)
| OpUpdateDistributor (id : Z) (distributorUpdate : PartnerUpdate)
| OpCreateRetailer (storeName : string)
| OpUpdateRetailer (id : Z) (retailerUpdate : PartnerUpdate)
| OpCreateBilledEntity (name : string)
| OpUpdateBilledEntity (id : Z) (entityUpdate : PartnerUpdate)
| OpCreatePurchase (insertPurchase : Purchase)
| OpUpdatePurchase (id : Z) (purchaseUpdate : PurchaseUpdate)
| OpDeletePurchase (id : Z)
| OpCreateSale (insertSale : Sale)
| OpUpdateSale (id : Z) (saleUpdate : SaleUpdate)
| OpDeleteSale (id : Z)
| OpCreateInvoiceTemplate (insertTemplate : InsertInvoiceTemplate)
| OpUpdateInvoiceTemplate (id : Z) (templateUpdate : InvoiceTemplateUpdate)
| OpCreateApprovalRequest (insertRequest : InsertApprovalRequest)
| OpUpdateApprovalRequest (id : Z) (requestUpdate : ApprovalRequestUpdate).

Definition storage_step (op : StorageOp) : Task unit :=
  match op with
  | OpCreateProduct p => createProduct p ;; mret ()
  | OpUpdateProduct id u => updateProduct id u ;; mret ()
  | OpDeleteProduct id => deleteProduct id ;; mret ()
  | OpUpdateProductStock id change => updateProductStock id change ;; mret ()
  | OpCreateSupplier n => createSupplier n ;; mret ()
  | OpUpdateSupplier id u => updateSupplier id u ;; mret ()
  | OpDeleteSupplier id => deleteSupplier id ;; mret ()
  | OpCreateVendor n => createVendor n ;; mret ()
  | OpUpdateVendor id u => updateVendor id u ;; mret ()
  | OpCreateDistributor n => createDistributor n ;; mret ()
  | OpUpdateDistributor id u => updateDistributor id u ;; mret ()
  | OpCreateRetailer n => createRetailer n ;; mret ()
  | OpUpdateRetailer id u => updateRetailer id u ;; mret ()
  | OpCreateBilledEntity n => createBilledEntity n ;; mret ()
  | OpUpdateBilledEntity id u => updateBilledEntity id u ;; mret ()
  | OpCreatePurchase p => createPurchase p ;; mret ()
  | OpUpdatePurchase id u => updatePurchase id u ;; mret ()
  | OpDeletePurchase id => deletePurchase id ;; mret ()
  | OpCreateSale s => createSale s ;; mret ()
  | OpUpdateSale id u => updateSale id u ;; mret ()
  | OpDeleteSale id => deleteSale id ;; mret ()
  | OpCreateInvoiceTemplate t => createInvoiceTemplate t ;; mret ()
  | OpUpdateInvoiceTemplate id u => updateInvoiceTemplate id u ;; mret ()
  | OpCreateApprovalRequest r => createApprovalRequest r ;; mret ()
  | OpUpdateApprovalRequest id u => updateApprovalRequest id u ;; mret ()
  end.

Definition storage_run (ops : list StorageOp) : Task unit :=
  for_of ops storage_step.

(** * Statements the store refuses *)

(** The methods above compute in [Z] and always return.  The store keeps
    an [integer] column in 32 bits: a statement that binds or computes a
    value outside that range is refused ("integer out of range"), nothing
    of it is written, and the awaited promise rejects, which ends the
    method at that [await].  No method opens a transaction, so what the
    earlier statements of the same call wrote stays written.

    [Pg] holds the methods of the stock ledger a second time, statement
    by statement as above, now with that refusal.  A call that returns
    here returns the same result and the same store as the method
    above. *)

Definition int4 (z : Z) : bool := (-2147483648 <=? z) && (z <=? 2147483647).

Inductive Outcome (A : Type) :=
| Returned (a : A)
| Raised.
Arguments Returned {A} _.
Arguments Raised {A}.

(** A method whose promise may reject: the store is returned in both
    cases. *)
Definition Attempt (A : Type) : Type := Db → Outcome A * Db.

#[global] Instance Attempt_ret : MRet Attempt := λ A a db, (Returned a, db).
#[global] Instance Attempt_bind : MBind Attempt :=
  λ A B k m db,
    match m db with
    | (Returned a, db') => k a db'
    | (Raised, db') => (Raised, db')
    end.

(** One statement sent to the store: [ok] tells whether the store accepts
    it in the state it meets. *)
Definition statement {A} (ok : Db → bool) (m : Task A) : Attempt A :=
  λ db, if ok db then (Returned (m db).1, (m db).2) else (Raised, db).

Module Pg.

Fixpoint for_of {A} (l : list A) (body : A → Attempt unit) : Attempt unit :=
  match l with
  | [] => mret ()
  | x :: l' => body x ;; for_of l' body
  end.

(** The parameters [id] and [change] are bound as [integer]s, and the new
    stock of the row the statement matches has to fit the column. *)
Definition updateProductStock (id change : Z) : Attempt (option Product) :=
  statement
    (λ db, int4 id && int4 change &&
           match rows (products db) !! id with
           | Some p => int4 (stock p + change)
           | None => true
           end)
    (update_by_id Products (λ p, set_stock (stock p + change) p) id).

(** The insert draws its key from the sequence of the [serial] column
    and binds [supplierId] as an [integer]; each stock update of the loop
    is a statement of its own. *)
Definition createPurchase (insertPurchase : Purchase) : Attempt (Z * Purchase) :=
  purchase ← statement
                (λ db, int4 (id_seq (purchases db)) &&
                       int4 (supplierId insertPurchase))
                (insert_returning Purchases insertPurchase);
  match purchase_items purchase.2 with
  | ItemArray items =>
      for_of items (λ item,
        if truthy (productId item) && truthy (quantity item)
        then updateProductStock (num (productId item)) (num (quantity item)) ;;
             mret ()
        else mret ())
  | NotArray => mret ()
  end ;;
  mret purchase.

(** [id] is bound as an [integer] by the select and by the delete. *)
Definition deletePurchase (id : Z) : Attempt bool :=
  purchase ← statement (λ _, int4 id) (select_by_id Purchases id);
  match purchase with
  | None => mret false
  | Some purchase =>
      match purchase_items purchase with
      | ItemArray items =>
          for_of items (λ item,
            if truthy (productId item) && truthy (quantity item)
            then updateProductStock (num (productId item))
                                    (- num (quantity item)) ;;
                 mret ()
            else mret ())
      | NotArray => mret ()
      end ;;
      result ← statement (λ _, int4 id) (delete_by_id Purchases id);
      mret (bool_decide (0 < length result)%nat)
  end.

Definition createSale (insertSale : Sale) : Attempt (Z * Sale) :=
  sale ← statement
            (λ db, int4 (id_seq (sales db)) && int4 (retailerId insertSale))
            (insert_returning Sales insertSale);
  match sale_items sale.2 with
  | ItemArray items =>
      for_of items (λ item,
        if truthy (productId item) && truthy (quantity item)
        then updateProductStock (num (productId item))
                                (- num (quantity item)) ;;
             mret ()
        else mret ())
  | NotArray => mret ()
  end ;;
  mret sale.

Definition deleteSale (id : Z) : Attempt bool :=
  sale ← statement (λ _, int4 id) (select_by_id Sales id);
  match sale with
  | None => mret false
  | Some sale =>
      match sale_items sale with
      | ItemArray items =>
          for_of items (λ item,
            if truthy (productId item) && truthy (quantity item)
            then updateProductStock (num (productId item)) (num (quantity item)) ;;
                 mret ()
            else mret ())
      | NotArray => mret ()
      end ;;
      result ← statement (λ _, int4 id) (delete_by_id Sales id);
      mret (bool_decide (0 < length result)%nat)
  end.

End Pg.

(** * Users and authentication (auth.ts) *)

(** [users]: the columns the modelled code reads. *)
Record User := mkUser {
  username : string;
  password : string;
  fullName : string;
  role : string;
  user_isActive : bool }.

(** [InsertUser]; [role] has a column default.  It is also the shape of
    the body [POST /api/register] spreads into [createUser]. *)
Record InsertUser := mkInsertUser {
  iu_username : string;
  iu_password : string;
  iu_fullName : string;
  iu_role : option string }.

(** The [users] table is touched by no method that touches another
    table: its computations carry that table alone. *)
Definition UserTask (A : Type) : Type := Table User → A * Table User.

#[global] Instance UserTask_ret : MRet UserTask := λ A a us, (a, us).
#[global] Instance UserTask_bind : MBind UserTask :=
  λ A B k m us, let r := m us in k r.1 r.2.

Definition getUser (id : Z) : UserTask (option User) :=
  λ us, (rows us !! id, us).

(** The first row with the given [username], if any. *)
Definition getUserByUsername (u : string) : UserTask (option (Z * User)) :=
  λ us, (head (map_to_list
                 (filter (λ kv, String.eqb (username kv.2) u = true) (rows us))),
         us).

Definition createUser (insertUser : InsertUser) : UserTask (Z * User) :=
  λ us, let id := id_seq us in
        let user := mkUser (iu_username insertUser) (iu_password insertUser)
                           (iu_fullName insertUser)
                           (default "salesperson"%string (iu_role insertUser))
                           true in
        ((id, user), mkTable (<[id := user]> (rows us)) (id + 1)).

Definition getAllUsers : UserTask (gmap Z User) :=
  λ us, (filter (λ kv, user_isActive kv.2 = true) (rows us), us).

(** ** Hexadecimal text of a buffer *)

(** [buf.toString("hex")]: two lower-case digits per byte. *)
Definition hex_digit (n : N) : Ascii.ascii :=
  if (n <? 10)%N then Ascii.ascii_of_N (48 + n) else Ascii.ascii_of_N (87 + n).

Definition to_hex_byte (b : Byte.byte) (rest : string) : string :=
  String (hex_digit (Byte.to_N b / 16))
         (String (hex_digit (Byte.to_N b mod 16)) rest).

Fixpoint to_hex (bs : list Byte.byte) : string :=
  match bs with
  | [] => ""
  | b :: bs' => to_hex_byte b (to_hex bs')
  end.

(** The value of a hexadecimal digit, in either case. *)
Definition hex_value (c : Ascii.ascii) : option N :=
  let n := Ascii.N_of_ascii c in
  if ((48 <=? n) && (n <=? 57))%N then Some (n - 48)%N
  else if ((97 <=? n) && (n <=? 102))%N then Some (n - 87)%N
  else if ((65 <=? n) && (n <=? 70))%N then Some (n - 55)%N
  else None.

(** [Buffer.from(s, "hex")]: pairs of digits are decoded up to the first
    pair that is not hexadecimal; a last unpaired character is dropped. *)
Fixpoint from_hex (s : string) : list Byte.byte :=
  match s with
  | String a (String b s') =>
      match hex_value a, hex_value b with
      | Some x, Some y =>
          match Byte.of_N (16 * x + y) with
          | Some v => v :: from_hex s'
          | None => []
          end
      | _, _ => []
      end
  | _ => []
  end.

(** [s.split(sep)] for a one-character separator: the first piece and the
    pieces after it. *)
Fixpoint split_on (sep : Ascii.ascii) (s : string) : string * list string :=
  match s with
  | EmptyString => (EmptyString, [])
  | String c s' =>
      let r := split_on sep s' in
      if Ascii.eqb c sep then (EmptyString, r.1 :: r.2)
      else (String c r.1, r.2)
  end.

(** The character "." (code 46). *)
Definition full_stop : Ascii.ascii := Ascii.ascii_of_N 46.

#[global] Instance byte_eq_dec : EqDecision Byte.byte := Byte.byte_eq_dec.

(** [timingSafeEqual(a, b)]: throws ([None]) when the lengths differ. *)
Definition timingSafeEqual (a b : list Byte.byte) : option bool :=
  if decide (length a = length b) then Some (bool_decide (a = b)) else None.

(** What [passport] is told by the verify callback of the local strategy:
    [done(null, user)], [done(null, false, { message })] or [done(err)]. *)
Inductive Verdict :=
| Authenticated (user : Z * User)
| Refused (message : string)
| Thrown.

Section auth.
(** [scrypt(password, salt, keylen)] of Node's [crypto], taken as given. *)
Context (scrypt : string → string → N → list Byte.byte).

(** [hashPassword], with the 16 random bytes of the salt as argument. *)
Definition hashPassword (random : list Byte.byte) (pw : string) : string :=
  let salt := to_hex random in
  let buf := scrypt pw salt 64 in
  to_hex buf +:+ "." +:+ salt.

(** [comparePasswords].  [const [hashed, salt] = stored.split(".")]: with
    no second piece the salt is [undefined] and [scrypt] throws. *)
Definition comparePasswords (supplied stored : string) : option bool :=
  let pieces := split_on full_stop stored in
  match pieces.2 with
  | [] => None
  | salt :: _ =>
      let hashedBuf := from_hex pieces.1 in
      let suppliedBuf := scrypt supplied salt 64 in
      timingSafeEqual hashedBuf suppliedBuf
  end.

(** The verify callback of the local strategy. *)
Definition verify (u pw : string) : UserTask Verdict :=
  user ← getUserByUsername u;
  match user with
  | None => mret (Refused "Incorrect username.")
  | Some user =>
      if negb (user_isActive user.2) then
        mret (Refused "User account is disabled.")
      else
        match comparePasswords pw (password user.2) with
        | None => mret Thrown
        | Some false => mret (Refused "Incorrect password.")
        | Some true => mret (Authenticated user)
        end
  end.

(** [POST /api/register] *)
Definition register (random : list Byte.byte) (body : InsertUser)
  : UserTask (Response (Z * User)) :=
  existingUser ← getUserByUsername (iu_username body);
  match existingUser with
  | Some _ => mret (Failure 400)
  | None =>
      let hashedPassword := hashPassword random (iu_password body) in
      user ← createUser (mkInsertUser (iu_username body) hashedPassword
                                      (iu_fullName body) (iu_role body));
      mret (Json 201 user)
  end.
End auth.

(** [passport.deserializeUser]: the session's user, unless it is gone or
    disabled. *)
Definition deserializeUser (id : Z) : UserTask (option User) :=
  user ← getUser id;
  match user with
  | None => mret None
  | Some user => if negb (user_isActive user) then mret None else mret (Some user)
  end.

(** The guard [isAdmin] of the admin routes. *)
Definition isAdmin (user : option User) : bool :=
  match user with
  | Some user => String.eqb (role user) "admin"
  | None => false
  end.

(** * Specification vocabulary *)

(** ** Well-formed stores

    Keys come from [serial] sequences that start at 1: every stored key
    lies between 1 and the next value of its sequence. *)

Definition wf_table {A} (t : Table A) : Prop :=
  1 ≤ id_seq t ∧ map_Forall (λ k _, 1 ≤ k < id_seq t) (rows t).

Definition wf_Db (db : Db) : Prop :=
  wf_table (products db) ∧ wf_table (suppliers db) ∧ wf_table (vendors db) ∧
  wf_table (distributors db) ∧ wf_table (retailers db) ∧
  wf_table (billedEntities db) ∧ wf_table (purchases db) ∧
  wf_table (sales db) ∧ wf_table (invoiceTemplates db) ∧
  wf_table (approvalRequests db).

#[global] Instance wf_table_dec {A} (t : Table A) : Decision (wf_table t).
Proof. unfold wf_table. apply _. Defined.

#[global] Instance wf_Db_dec db : Decision (wf_Db db).
Proof. unfold wf_Db. apply _. Defined.

(** ** The stock ledger *)

Definition stock_of (db : Db) (P : Z) : option Z :=
  stock <$> rows (products db) !! P.

Definition line_items (its : Items) : list Item :=
  match its with
  | ItemArray items => items
  | NotArray => []
  end.

(** The quantity a line item carries for product [P]: its [quantity] when
    it references [P], nothing otherwise. *)
Definition item_quantity_for (P : Z) (item : Item) : Z :=
  if bool_decide (productId item = Some P) then num (quantity item) else 0.

Definition quantity_for (P : Z) (its : Items) : Z :=
  foldr (λ item acc, item_quantity_for P item + acc) 0 (line_items its).

(** Sum of [f] over the rows of a table. *)
Definition table_sum {A} (f : A → Z) (m : gmap Z A) : Z :=
  map_fold (λ _ r acc, f r + acc) 0 m.

Definition purchased (db : Db) (P : Z) : Z :=
  table_sum (λ pu, quantity_for P (purchase_items pu)) (rows (purchases db)).

Definition sold (db : Db) (P : Z) : Z :=
  table_sum (λ sa, quantity_for P (sale_items sa)) (rows (sales db)).

(** Sequences of ledger operations. *)
Inductive LedgerOp :=
| CreatePurchase (insertPurchase : Purchase)
| CreateSale (insertSale : Sale)
| DeletePurchase (id : Z)
| DeleteSale (id : Z).

Definition ledger_step (op : LedgerOp) : Task unit :=
  match op with
  | CreatePurchase p => createPurchase p ;; mret ()
  | CreateSale s => createSale s ;; mret ()
  | DeletePurchase id => deletePurchase id ;; mret ()
  | DeleteSale id => deleteSale id ;; mret ()
  end.

Definition ledger_run (ops : list LedgerOp) : Task unit :=
  for_of ops ledger_step.

(** The body shared by the four line-item loops of [createPurchase],
    [deletePurchase], [createSale] and [deleteSale]; [d] is the change
    handed to [updateProductStock]. *)
Definition apply_item (d : Item → Z) (item : Item) : Task unit :=
  if truthy (productId item) && truthy (quantity item)
  then updateProductStock (num (productId item)) (d item) ;; mret ()
  else mret ().

(** The change one loop iteration, and a whole loop, brings to product
    [P]. *)
Definition item_delta (d : Item → Z) (P : Z) (item : Item) : Z :=
  if truthy (productId item) && truthy (quantity item)
     && bool_decide (num (productId item) = P)
  then d item else 0.

Definition items_delta (d : Item → Z) (P : Z) (items : list Item) : Z :=
  foldr (λ item acc, item_delta d P item + acc) 0 items.

(** Adding [f P] to the stock of every stored product [P]. *)
Definition bump (f : Z → Z) (m : gmap Z Product) : gmap Z Product :=
  map_imap (λ P p, Some (set_stock (stock p + f P) p)) m.

Definition bump_products (f : Z → Z) (db : Db) : Db :=
  set_products (mkTable (bump f (rows (products db))) (id_seq (products db))) db.

Definition plus_quantity (item : Item) : Z := num (quantity item).
Definition minus_quantity (item : Item) : Z := - num (quantity item).

(** The same sequences with the store's refusals: the sequence stops
    at the first call whose promise rejects. *)
Definition ledger_attempt (op : LedgerOp) : Attempt unit :=
  match op with
  | CreatePurchase p => Pg.createPurchase p ;; mret ()
  | CreateSale s => Pg.createSale s ;; mret ()
  | DeletePurchase id => Pg.deletePurchase id ;; mret ()
  | DeleteSale id => Pg.deleteSale id ;; mret ()
  end.

Definition ledger_attempts (ops : list LedgerOp) : Attempt unit :=
  Pg.for_of ops ledger_attempt.

(** ** Default-template exclusivity *)

Definition default_at (m : gmap Z InvoiceTemplate) (k : Z) : Prop :=
  ∃ t, m !! k = Some t ∧ isDefault t = true.

(** At most one row of [invoiceTemplates] has [isDefault = true]. *)
Definition at_most_one_default (db : Db) : Prop :=
  ∀ i j, default_at (rows (invoiceTemplates db)) i →
         default_at (rows (invoiceTemplates db)) j → i = j.

Inductive TemplateOp :=
| CreateTemplate (insertTemplate : InsertInvoiceTemplate)
| UpdateTemplate (id : Z) (templateUpdate : InvoiceTemplateUpdate).

Definition template_step (op : TemplateOp) : Task unit :=
  match op with
  | CreateTemplate t => createInvoiceTemplate t ;; mret ()
  | UpdateTemplate id u => updateInvoiceTemplate id u ;; mret ()
  end.

Definition template_run (ops : list TemplateOp) : Task unit :=
  for_of ops template_step.

(** The rows after [UPDATE invoice_templates SET is_default = false WHERE
    is_default = true]. *)
Definition clear_defaults (m : gmap Z InvoiceTemplate) : gmap Z InvoiceTemplate :=
  (λ t, if isDefault t then set_isDefault false t else t) <$> m.

(** ** Approval workflow *)

(** The five partner tables, whose rows carry [isApproved]. *)
Definition partner_tables (db : Db)
  : Table Partner * Table Partner * Table Partner * Table Partner * Table Partner :=
  (suppliers db, vendors db, distributors db, retailers db, billedEntities db).

(** The entity-type tags the approval switch has a case for. *)
Definition approvable : list string :=
  ["vendor"; "distributor"; "retailer"; "billedEntity"]%string.

(** The store after the request row has been rewritten. *)
Definition with_request (id : Z) (req : ApprovalRequest) (db : Db) : Db :=
  set_approvalRequests
    (mkTable (<[id := req]> (rows (approvalRequests db)))
             (id_seq (approvalRequests db))) db.

(** The store after [SET is_approved = true WHERE id = k] on one partner
    table. *)
Definition approve_in (T : TableRef Partner) (k : Z) (db : Db) : Db :=
  tbl_set T (mkTable (alter (set_isApproved true) k (rows (tbl_get T db)))
                     (id_seq (tbl_get T db))) db.

(** What [PUT /approval-requests/:id] hands to [updateApprovalRequest]. *)
Definition decision (status : string) (notes : option (option string))
  : ApprovalRequestUpdate :=
  mkApprovalRequestUpdate None None None (Some status) notes.

(** ** Low-stock query *)

(** The two selections of [getLowStockProducts]. *)
Definition at_or_below (threshold : Z) (p : Product) : Prop :=
  product_isActive p = true ∧ stock p ≤ threshold.

Definition at_or_below_own_minimum (p : Product) : Prop :=
  product_isActive p = true ∧ ∃ m, minStock p = Some m ∧ stock p ≤ m.

(** ** Sample stores *)

Definition product_X1 : InsertProduct := mkInsertProduct "X1" 10 (Some (Some 5)).
Definition item_X1 (q : Z) : Item := mkItem (Some 1) (Some q).
Definition purchase_20 : Purchase := mkPurchase 1 (ItemArray [item_X1 20]).
Definition sale_25 : Sale := mkSale 1 (ItemArray [item_X1 25]).

(** A purchase of the largest quantity an [integer] holds. *)
Definition purchase_max : Purchase :=
  mkPurchase 1 (ItemArray [item_X1 2147483647]).

(** The store after [createProduct] of X1. *)
Definition db_X1 : Db := (createProduct product_X1 empty_db).2.

(** X1 with one purchase (key 1) and one sale (key 1) recorded. *)
Definition db_X1_traded : Db :=
  (createSale sale_25 (createPurchase purchase_20 db_X1).2).2.

Definition template_A : InsertInvoiceTemplate :=
  mkInsertInvoiceTemplate "A" "<a/>" (Some true).
Definition template_B : InsertInvoiceTemplate :=
  mkInsertInvoiceTemplate "B" "<b/>" (Some true).

(** A store whose only template (key 1) is the default one. *)
Definition db_template_A : Db := (createInvoiceTemplate template_A empty_db).2.

(** A vendor registered by user 1, with its pending request (key 1). *)
Definition db_vendor_pending : Db :=
  (postVendors (Some (1, "Admin"%string)) "Acme" empty_db).2.

Definition db_vendor_approved : Db :=
  (putApprovalRequest 1 (Some "approved"%string) None db_vendor_pending).2.

(** A supplier registered by user 1 through [POST /suppliers]: the route
    opens a request tagged "supplier" (key 1). *)
Definition db_supplier_pending : Db :=
  (postSuppliers (Some (1, "Admin"%string)) "Acme" empty_db).2.

(** An active product with stock 5 and minimum stock 10 (key 1). *)
Definition db_low : Db :=
  (createProduct (mkInsertProduct "L1" 5 (Some (Some 10))) empty_db).2.

(** ** Vocabulary of the further properties *)


(** The [switch] of [updateApprovalRequest]: the flag it sets for an
    approved request. *)
Definition approve_entity (req : ApprovalRequest) (db : Db) : Db :=
  if String.eqb (entityType req) "vendor" then
    approve_in Vendors (entityId req) db
  else if String.eqb (entityType req) "distributor" then
    approve_in Distributors (entityId req) db
  else if String.eqb (entityType req) "retailer" then
    approve_in Retailers (entityId req) db
  else if String.eqb (entityType req) "billedEntity" then
    approve_in BilledEntities (entityId req) db
  else db.

(** The store after a route has opened the pending request of a new
    entity. *)
Definition with_new_request (tag : string) (eid uid : Z) (note : string)
    (db : Db) : Db :=
  set_approvalRequests
    (mkTable (<[id_seq (approvalRequests db) :=
                 mkApprovalRequest tag eid uid "pending" (Some note)]>
                (rows (approvalRequests db)))
             (id_seq (approvalRequests db) + 1)) db.

(** What a registration route followed by a decision does, for one kind
    of partner entity: [post] is the route, [table] its table,
    [getApproved] the approved selection, [tag] the entity type the route
    writes in the request and [prefix] the opening of its note. *)
Definition onboards
    (post : option (Z * string) → string → Task (Response (Z * Partner)))
    (table : Db → Table Partner) (getApproved : Task (gmap Z Partner))
    (tag prefix : string)
    (db : Db) (uid : Z) (fullName name : string)
    (notes : option (option string)) : Prop :=
  let eid := id_seq (table db) in
  let rid := id_seq (approvalRequests db) in
  let posted := post (Some (uid, fullName)) name db in
  let approved := (putApprovalRequest rid (Some "approved"%string) notes posted.2).2 in
  let rejected := (putApprovalRequest rid (Some "rejected"%string) notes posted.2).2 in
  posted.1 = Json 201 (eid, mkPartner name false true) ∧
  (getPendingApprovalRequests posted.2).1 !! rid
  = Some (mkApprovalRequest tag eid uid "pending"
            (Some (prefix +:+ name +:+ " added by " +:+ fullName))) ∧
  (getApproved posted.2).1 !! eid = None ∧
  (getApproved approved).1 !! eid = Some (mkPartner name true true) ∧
  (getApproved rejected).1 !! eid = None.

(** ** What a sequence of storage calls keeps *)

(** Every row of [t] is still in [t'], an approved partner is still
    approved and a deactivated one is still inactive. *)
Definition partner_kept (t t' : Table Partner) : Prop :=
  ∀ k e, rows t !! k = Some e →
    ∃ e', rows t' !! k = Some e' ∧
          (isApproved e = true → isApproved e' = true) ∧
          (isActive e = false → isActive e' = false).

(** Every product of [t] is still in [t'], and a deactivated one is
    still inactive. *)
Definition product_kept (t t' : Table Product) : Prop :=
  ∀ k p, rows t !! k = Some p →
    ∃ p', rows t' !! k = Some p' ∧
          (product_isActive p = false → product_isActive p' = false).

Definition rows_kept {A} (t t' : Table A) : Prop :=
  ∀ k, is_Some (rows t !! k) → is_Some (rows t' !! k).

Record evolves (db db' : Db) : Prop := mk_evolves {
  ev_products : product_kept (products db) (products db');
  ev_suppliers : partner_kept (suppliers db) (suppliers db');
  ev_vendors : partner_kept (vendors db) (vendors db');
  ev_distributors : partner_kept (distributors db) (distributors db');
  ev_retailers : partner_kept (retailers db) (retailers db');
  ev_billedEntities : partner_kept (billedEntities db) (billedEntities db');
  ev_invoiceTemplates : rows_kept (invoiceTemplates db) (invoiceTemplates db') }.

(** No supplier row is approved. *)
Definition no_supplier_approved (db : Db) : Prop :=
  ∀ k e, rows (suppliers db) !! k = Some e → isApproved e = false.

Definition approved_in (t : Table Partner) (k : Z) : Prop :=
  ∃ e, rows t !! k = Some e ∧ isApproved e = true.

(** Sample sequences of storage calls. *)
Definition ops_after_approval : list StorageOp :=
  [OpUpdateVendor 1 (mkPartnerUpdate (Some "Acme Ltd"%string));
   OpUpdateApprovalRequest 1 (decision "rejected" None);
   OpCreateVendor "Other";
   OpCreateApprovalRequest (mkInsertApprovalRequest "vendor" 1 1 None None);
   OpUpdateApprovalRequest 2 (decision "rejected" None)].

Definition ops_on_supplier : list StorageOp :=
  [OpUpdateApprovalRequest 1 (decision "approved" None);
   OpUpdateSupplier 1 (mkPartnerUpdate (Some "Acme Ltd"%string));
   OpDeleteSupplier 1;
   OpCreateSupplier "Other";
   OpUpdateApprovalRequest 1
     (mkApprovalRequestUpdate (Some "vendor"%string) None None
        (Some "approved"%string) None)].

Definition ops_on_deleted_product : list StorageOp :=
  [OpDeleteProduct 1;
   OpUpdateProduct 1 (mkProductUpdate None (Some 100) None);
   OpCreatePurchase purchase_20;
   OpCreateProduct (mkInsertProduct "X2" 3 None);
   OpDeletePurchase 1].

(** ** Users *)

(** No two users share a [username]. *)
Definition unique_usernames (us : Table User) : Prop :=
  ∀ i j ui uj, rows us !! i = Some ui → rows us !! j = Some uj →
    username ui = username uj → i = j.

Definition username_free (u : string) (us : Table User) : Prop :=
  ∀ k x, rows us !! k = Some x → username x ≠ u.

(** A sequence of registrations: the random salt bytes and the body of
    each call. *)
Definition register_all
    (scrypt : string → string → N → list Byte.byte)
    (calls : list (list Byte.byte * InsertUser)) (us : Table User) : Table User :=
  foldl (λ us call, (register scrypt call.1 call.2 us).2) us calls.

(** A stand-in for the key derivation, for the examples: 64 bytes that
    depend on the length of the password and of the salt. *)
Definition toy_scrypt (pw salt : string) (keylen : N) : list Byte.byte :=
  replicate (N.to_nat keylen)
    (default Byte.x00 (Byte.of_N (N.of_nat (String.length pw + String.length salt) mod 256))).

Definition users_ann : Table User :=
  (register toy_scrypt [Byte.x0f; Byte.xa0]
     (mkInsertUser "ann" "secret" "Ann" None) empty_table).2.

(** * Proofs *)

Ltac task_simpl :=
  unfold mbind, Task_bind, mret, Task_ret in *; simpl in *.

(** ** Generic facts *)

Lemma table_sum_empty {A} (f : A → Z) : table_sum f ∅ = 0.
Proof. unfold table_sum. by rewrite map_fold_empty. Qed.

Lemma table_sum_insert {A} (f : A → Z) (m : gmap Z A) k r :
  m !! k = None → table_sum f (<[k := r]> m) = f r + table_sum f m.
Proof.
  intros Hk. unfold table_sum.
  rewrite map_fold_insert_L; [done | intros; lia | done].
Qed.

Lemma table_sum_delete {A} (f : A → Z) (m : gmap Z A) k r :
  m !! k = Some r → table_sum f m = f r + table_sum f (delete k m).
Proof.
  intros Hk. unfold table_sum.
  rewrite (map_fold_delete_L _ _ k r m); [done | intros; lia | done].
Qed.

Lemma set_stock_id p : set_stock (stock p) p = p.
Proof. by destruct p. Qed.

(** ** Stock deltas of a line-item loop *)

Lemma lookup_bump f m P :
  bump f m !! P = (λ p, set_stock (stock p + f P) p) <$> m !! P.
Proof. unfold bump. rewrite map_lookup_imap. by destruct (m !! P). Qed.

Lemma bump_zero f m : (∀ P, f P = 0) → bump f m = m.
Proof.
  intros Hf. apply map_eq. intros P. rewrite lookup_bump, Hf.
  destruct (m !! P) as [p|]; simpl; [|done].
  by rewrite Z.add_0_r, set_stock_id.
Qed.

Lemma bump_bump f g m : bump f (bump g m) = bump (λ P, g P + f P) m.
Proof.
  apply map_eq. intros P. rewrite !lookup_bump.
  destruct (m !! P) as [p|]; simpl; [|done].
  f_equal. unfold set_stock. simpl. f_equal. lia.
Qed.

Lemma bump_products_zero f db : (∀ P, f P = 0) → bump_products f db = db.
Proof.
  intros Hf. unfold bump_products. rewrite bump_zero by done.
  by destruct db as [[] ? ? ? ? ? ? ? ? ?].
Qed.

Lemma bump_products_bump_products f g db :
  bump_products f (bump_products g db) = bump_products (λ P, g P + f P) db.
Proof. unfold bump_products. simpl. by rewrite bump_bump. Qed.

Lemma stock_of_bump_products f db P :
  stock_of (bump_products f db) P = (λ s, s + f P) <$> stock_of db P.
Proof.
  unfold stock_of, bump_products. simpl. rewrite lookup_bump.
  by destruct (rows (products db) !! P).
Qed.

(** One stock update is a bump at a single key. *)
Lemma updateProductStock_bump id change db :
  (updateProductStock id change db).2
  = bump_products (λ P, if bool_decide (id = P) then change else 0) db.
Proof.
  unfold updateProductStock, update_by_id, bump_products. simpl.
  destruct (rows (products db) !! id) as [p|] eqn:Hid; simpl.
  - f_equal. f_equal. apply map_eq. intros P. rewrite lookup_bump.
    destruct (decide (id = P)) as [->|Hne].
    + rewrite lookup_insert_eq, Hid. simpl. by rewrite bool_decide_eq_true_2.
    + rewrite lookup_insert_ne by done. rewrite bool_decide_eq_false_2 by done.
      destruct (rows (products db) !! P) as [q|]; simpl; [|done].
      by rewrite Z.add_0_r, set_stock_id.
  - unfold set_products. destruct db as [[m n] ? ? ? ? ? ? ? ? ?]. simpl in *.
    f_equal. f_equal. apply map_eq. intros P. rewrite lookup_bump.
    destruct (m !! P) as [q|] eqn:HP; simpl; [|done].
    rewrite bool_decide_eq_false_2 by congruence.
    by rewrite Z.add_0_r, set_stock_id.
Qed.

Lemma apply_item_bump d item db :
  apply_item d item db = ((), bump_products (λ P, item_delta d P item) db).
Proof.
  unfold apply_item, item_delta.
  destruct (truthy (productId item) && truthy (quantity item)); simpl.
  - task_simpl. f_equal. by rewrite updateProductStock_bump.
  - task_simpl. f_equal. by rewrite bump_products_zero.
Qed.

Lemma for_of_apply_item d items db :
  for_of items (apply_item d) db
  = ((), bump_products (λ P, items_delta d P items) db).
Proof.
  revert db. induction items as [|item items IH]; intros db; simpl.
  - task_simpl. f_equal. by rewrite bump_products_zero.
  - unfold mbind, Task_bind. rewrite apply_item_bump. simpl. rewrite IH.
    f_equal. by rewrite bump_products_bump_products.
Qed.

(** The loop over a JSON [items] value, with its [Array.isArray] guard. *)
Lemma items_loop_bump d (its : Items) db :
  match its with
  | ItemArray items => for_of items (apply_item d)
  | NotArray => mret ()
  end db
  = ((), bump_products (λ P, items_delta d P (line_items its)) db).
Proof.
  destruct its as [items|]; simpl.
  - apply for_of_apply_item.
  - task_simpl. f_equal. by rewrite bump_products_zero.
Qed.

Lemma createPurchase_eq p db :
  createPurchase p db
  = ((id_seq (purchases db), p),
     bump_products (λ P, items_delta plus_quantity P (line_items (purchase_items p)))
       (set_purchases
          (mkTable (<[id_seq (purchases db) := p]> (rows (purchases db)))
                   (id_seq (purchases db) + 1)) db)).
Proof.
  unfold createPurchase. unfold mbind at 1, Task_bind at 1. simpl.
  unfold mbind at 1, Task_bind at 1.
  change (λ item : Item, if truthy (productId item) && truthy (quantity item)
      then updateProductStock (num (productId item)) (num (quantity item)) ;; mret ()
      else mret ()) with (apply_item plus_quantity).
  by rewrite items_loop_bump.
Qed.

Lemma createSale_eq s db :
  createSale s db
  = ((id_seq (sales db), s),
     bump_products (λ P, items_delta minus_quantity P (line_items (sale_items s)))
       (set_sales
          (mkTable (<[id_seq (sales db) := s]> (rows (sales db)))
                   (id_seq (sales db) + 1)) db)).
Proof.
  unfold createSale. unfold mbind at 1, Task_bind at 1. simpl.
  unfold mbind at 1, Task_bind at 1.
  change (λ item : Item, if truthy (productId item) && truthy (quantity item)
      then updateProductStock (num (productId item)) (- num (quantity item)) ;; mret ()
      else mret ()) with (apply_item minus_quantity).
  by rewrite items_loop_bump.
Qed.

Lemma deletePurchase_Some id p db :
  rows (purchases db) !! id = Some p →
  deletePurchase id db
  = (true,
     set_purchases (mkTable (delete id (rows (purchases db))) (id_seq (purchases db)))
       (bump_products
          (λ P, items_delta minus_quantity P (line_items (purchase_items p))) db)).
Proof.
  intros Hid. unfold deletePurchase. unfold mbind at 1, Task_bind at 1.
  simpl. rewrite Hid. unfold mbind at 1, Task_bind at 1.
  change (λ item : Item, if truthy (productId item) && truthy (quantity item)
      then updateProductStock (num (productId item)) (- num (quantity item)) ;; mret ()
      else mret ()) with (apply_item minus_quantity).
  rewrite items_loop_bump. task_simpl. unfold delete_by_id. simpl. by rewrite Hid.
Qed.

Lemma deletePurchase_None id db :
  rows (purchases db) !! id = None → deletePurchase id db = (false, db).
Proof.
  intros Hid. unfold deletePurchase. task_simpl. by rewrite Hid.
Qed.

Lemma deleteSale_Some id s db :
  rows (sales db) !! id = Some s →
  deleteSale id db
  = (true,
     set_sales (mkTable (delete id (rows (sales db))) (id_seq (sales db)))
       (bump_products
          (λ P, items_delta plus_quantity P (line_items (sale_items s))) db)).
Proof.
  intros Hid. unfold deleteSale. unfold mbind at 1, Task_bind at 1.
  simpl. rewrite Hid. unfold mbind at 1, Task_bind at 1.
  change (λ item : Item, if truthy (productId item) && truthy (quantity item)
      then updateProductStock (num (productId item)) (num (quantity item)) ;; mret ()
      else mret ()) with (apply_item plus_quantity).
  rewrite items_loop_bump. task_simpl. unfold delete_by_id. simpl. by rewrite Hid.
Qed.

Lemma deleteSale_None id db :
  rows (sales db) !! id = None → deleteSale id db = (false, db).
Proof.
  intros Hid. unfold deleteSale. task_simpl. by rewrite Hid.
Qed.

(** ** The ledger invariant *)

Lemma items_delta_minus P items :
  items_delta minus_quantity P items = - items_delta plus_quantity P items.
Proof.
  induction items as [|item items IH]; simpl; [done|].
  rewrite IH. unfold item_delta, minus_quantity, plus_quantity.
  destruct (truthy (productId item) && truthy (quantity item)
            && bool_decide (num (productId item) = P)); lia.
Qed.

(** For a key a [serial] column can hold, the change a recording loop
    brings to [P] is the quantity the line items carry for [P]. *)
Lemma item_delta_plus P item :
  P ≠ 0 → item_delta plus_quantity P item = item_quantity_for P item.
Proof.
  intros HP. unfold item_delta, item_quantity_for, plus_quantity, truthy.
  destruct item as [[pid|] [q|]]; simpl;
    repeat case_bool_decide;
    repeat match goal with
           | |- context [?a =? ?b] => destruct (Z.eqb_spec a b)
           end;
    simplify_eq/=; done.
Qed.

Lemma items_delta_plus P its :
  P ≠ 0 → items_delta plus_quantity P (line_items its) = quantity_for P its.
Proof.
  intros HP. unfold quantity_for.
  induction (line_items its) as [|item items IH]; simpl; [done|].
  by rewrite IH, item_delta_plus.
Qed.

Lemma wf_table_fresh {A} (t : Table A) : wf_table t → rows t !! id_seq t = None.
Proof.
  intros [_ Hwf]. destruct (rows t !! id_seq t) as [r|] eqn:Hk; [|done].
  specialize (Hwf _ _ Hk). simpl in Hwf. lia.
Qed.

Lemma wf_table_insert {A} (t : Table A) r :
  wf_table t → wf_table (mkTable (<[id_seq t := r]> (rows t)) (id_seq t + 1)).
Proof.
  intros [H1 Hwf]. split; simpl; [lia|]. intros k x Hk. simpl.
  destruct (decide (id_seq t = k)) as [<-|Hne]; [lia|].
  rewrite lookup_insert_ne in Hk by done. specialize (Hwf _ _ Hk).
  simpl in Hwf. lia.
Qed.

Lemma wf_table_delete {A} (t : Table A) id :
  wf_table t → wf_table (mkTable (delete id (rows t)) (id_seq t)).
Proof.
  intros [H1 Hwf]. split; simpl; [done|]. intros k x Hk.
  apply lookup_delete_Some in Hk as [_ Hk]. by apply (Hwf _ _ Hk).
Qed.

Lemma stock_of_set_purchases t db P :
  stock_of (set_purchases t db) P = stock_of db P.
Proof. done. Qed.

Lemma stock_of_set_sales t db P : stock_of (set_sales t db) P = stock_of db P.
Proof. done. Qed.

(** What one ledger operation does to the stock of [P], to the sum of
    purchased quantities and to the sum of sold quantities. *)
Lemma ledger_step_inv op db P :
  wf_table (purchases db) → wf_table (sales db) → P ≠ 0 →
  let db' := (ledger_step op db).2 in
  wf_table (purchases db') ∧ wf_table (sales db') ∧
  stock_of db' P
  = (λ s, s + (purchased db' P - purchased db P) - (sold db' P - sold db P))
      <$> stock_of db P.
Proof.
  intros Hpu Hsa HP.
  assert (Hid : ∀ o : option Z, o = (λ s, s + 0 - 0) <$> o).
  { intros [s|]; simpl; [f_equal; lia | done]. }
  destruct op as [p|s|id|id];
    unfold ledger_step, mbind, Task_bind, mret, Task_ret; cbv zeta.
  - rewrite createPurchase_eq. simpl. split_and!.
    + by apply wf_table_insert.
    + done.
    + rewrite stock_of_bump_products. unfold purchased, sold at 1 2. simpl.
      rewrite table_sum_insert by by apply wf_table_fresh.
      rewrite items_delta_plus by done.
      unfold stock_of. simpl. destruct (rows (products db) !! P); simpl; [|done].
      f_equal. fold (sold db P). lia.
  - rewrite createSale_eq. simpl. split_and!.
    + done.
    + by apply wf_table_insert.
    + rewrite stock_of_bump_products. unfold sold, purchased at 1 2. simpl.
      rewrite table_sum_insert by by apply wf_table_fresh.
      rewrite items_delta_minus, items_delta_plus by done.
      unfold stock_of. simpl. destruct (rows (products db) !! P); simpl; [|done].
      f_equal. fold (purchased db P). lia.
  - destruct (rows (purchases db) !! id) as [p|] eqn:Hp.
    + rewrite (deletePurchase_Some _ p) by done. simpl. split_and!.
      * by apply wf_table_delete.
      * done.
      * rewrite stock_of_set_purchases, stock_of_bump_products. unfold purchased, sold at 1 2. simpl.
        rewrite (table_sum_delete _ (rows (purchases db)) id p) by done.
        rewrite items_delta_minus, items_delta_plus by done.
        destruct (stock_of db P); simpl; [|done]. f_equal. lia.
    + rewrite deletePurchase_None by done. simpl. split_and!; [done..|].
      rewrite !Z.sub_diag. apply Hid.
  - destruct (rows (sales db) !! id) as [s|] eqn:Hs.
    + rewrite (deleteSale_Some _ s) by done. simpl. split_and!.
      * done.
      * by apply wf_table_delete.
      * rewrite stock_of_set_sales, stock_of_bump_products. unfold sold, purchased at 1 2. simpl.
        rewrite (table_sum_delete _ (rows (sales db)) id s) by done.
        rewrite items_delta_plus by done.
        destruct (stock_of db P); simpl; [|done]. f_equal. lia.
    + rewrite deleteSale_None by done. simpl. split_and!; [done..|].
      rewrite !Z.sub_diag. apply Hid.
Qed.

Lemma ledger_run_nil db : ledger_run [] db = ((), db).
Proof. done. Qed.

Lemma ledger_run_cons op ops db :
  ledger_run (op :: ops) db = ledger_run ops (ledger_step op db).2.
Proof. done. Qed.

Lemma ledger_run_inv ops db P :
  wf_table (purchases db) → wf_table (sales db) → P ≠ 0 →
  let db' := (ledger_run ops db).2 in
  wf_table (purchases db') ∧ wf_table (sales db') ∧
  stock_of db' P
  = (λ s, s + (purchased db' P - purchased db P) - (sold db' P - sold db P))
      <$> stock_of db P.
Proof.
  revert db. induction ops as [|op ops IH]; intros db Hpu Hsa HP; cbv zeta.
  - rewrite ledger_run_nil. simpl. split_and!; [done..|]. rewrite !Z.sub_diag.
    destruct (stock_of db P); simpl; [f_equal; lia | done].
  - rewrite ledger_run_cons.
    destruct (ledger_step_inv op db P Hpu Hsa HP) as (Hpu' & Hsa' & Hst).
    destruct (IH _ Hpu' Hsa' HP) as (Hpu'' & Hsa'' & Hst'').
    split_and!; [done..|].
    rewrite Hst'', Hst.
    destruct (stock_of db P); simpl; [f_equal; lia | done].
Qed.

(** ** Stock ledger: recorded and reversed transactions *)

(** Scenario of the specification: stock 10, purchase of 20, sale of 25. *)
Example scenario_stock :
  stock_of db_X1 1 = Some 10 ∧
  stock_of (createPurchase purchase_20 db_X1).2 1 = Some 30 ∧
  stock_of db_X1_traded 1 = Some 5 ∧
  (getLowStockProducts None db_X1_traded).1 !! 1
  = Some (mkProduct "X1" 5 (Some 5) true).
Proof. by vm_compute. Qed.

(** ** Calls the store accepts *)

Lemma statement_Returned {A} ok (m : Task A) db a db' :
  statement ok m db = (Returned a, db') → m db = (a, db').
Proof.
  unfold statement. destruct (ok db); [|done].
  intros [= <- <-]. by destruct (m db).
Qed.

Lemma Attempt_bind_Returned {A B} (m : Attempt A) (k : A → Attempt B) db b db' :
  (m ≫= k) db = (Returned b, db') →
  ∃ a db1, m db = (Returned a, db1) ∧ k a db1 = (Returned b, db').
Proof.
  unfold mbind, Attempt_bind. destruct (m db) as [[a|] db1]; [eauto|done].
Qed.

Lemma Attempt_ret_Returned {A} (a b : A) db db' :
  mret (M := Attempt) a db = (Returned b, db') → a = b ∧ db = db'.
Proof. by intros [= -> ->]. Qed.

Lemma Pg_items_loop_Returned (d : Item → Z) items db db' :
  Pg.for_of items (λ item,
    if truthy (productId item) && truthy (quantity item)
    then Pg.updateProductStock (num (productId item)) (d item) ;; mret ()
    else mret ()) db = (Returned (), db') →
  for_of items (apply_item d) db = ((), db').
Proof.
  revert db. induction items as [|item items IH]; intros db; simpl.
  - by intros [= ->].
  - intros H. apply Attempt_bind_Returned in H as ([] & db1 & Hitem & Hrest).
    unfold mbind at 1, Task_bind. cbv zeta.
    assert (Hstep : apply_item d item db = ((), db1)).
    { unfold apply_item.
      destruct (truthy (productId item) && truthy (quantity item)).
      - apply Attempt_bind_Returned in Hitem as (r & db2 & Hupd & Hret).
        apply Attempt_ret_Returned in Hret as [_ ->].
        unfold Pg.updateProductStock in Hupd. apply statement_Returned in Hupd.
        unfold mbind, Task_bind, mret, Task_ret, updateProductStock.
        cbv zeta. by rewrite Hupd.
      - by apply Attempt_ret_Returned in Hitem as [_ ->]. }
    rewrite Hstep. cbn [fst snd]. by apply IH.
Qed.

Lemma Pg_createPurchase_Returned p db r db' :
  Pg.createPurchase p db = (Returned r, db') → createPurchase p db = (r, db').
Proof.
  unfold Pg.createPurchase. intros H.
  apply Attempt_bind_Returned in H as (pu & db1 & Hins & H).
  apply Attempt_bind_Returned in H as ([] & db2 & Hloop & Hret).
  apply Attempt_ret_Returned in Hret as [-> ->].
  apply statement_Returned in Hins.
  unfold createPurchase, mbind, Task_bind. cbv zeta. rewrite Hins. cbn [fst snd].
  destruct (purchase_items r.2) as [items|].
  - apply (Pg_items_loop_Returned plus_quantity) in Hloop.
    match goal with
    | |- context [for_of items ?f db1] =>
        change (for_of items f db1) with (for_of items (apply_item plus_quantity) db1)
    end.
    by rewrite Hloop.
  - by apply Attempt_ret_Returned in Hloop as [_ ->].
Qed.

Lemma Pg_createSale_Returned s db r db' :
  Pg.createSale s db = (Returned r, db') → createSale s db = (r, db').
Proof.
  unfold Pg.createSale. intros H.
  apply Attempt_bind_Returned in H as (sa & db1 & Hins & H).
  apply Attempt_bind_Returned in H as ([] & db2 & Hloop & Hret).
  apply Attempt_ret_Returned in Hret as [-> ->].
  apply statement_Returned in Hins.
  unfold createSale, mbind, Task_bind. cbv zeta. rewrite Hins. cbn [fst snd].
  destruct (sale_items r.2) as [items|].
  - apply (Pg_items_loop_Returned minus_quantity) in Hloop.
    match goal with
    | |- context [for_of items ?f db1] =>
        change (for_of items f db1) with (for_of items (apply_item minus_quantity) db1)
    end.
    by rewrite Hloop.
  - by apply Attempt_ret_Returned in Hloop as [_ ->].
Qed.

Lemma Pg_deletePurchase_Returned id db r db' :
  Pg.deletePurchase id db = (Returned r, db') → deletePurchase id db = (r, db').
Proof.
  unfold Pg.deletePurchase. intros H.
  apply Attempt_bind_Returned in H as (pu & db1 & Hsel & H).
  apply statement_Returned in Hsel.
  unfold deletePurchase, mbind at 1, Task_bind at 1. cbv zeta.
  rewrite Hsel. cbn [fst snd].
  destruct pu as [pu|].
  - apply Attempt_bind_Returned in H as ([] & db2 & Hloop & H).
    apply Attempt_bind_Returned in H as (res & db3 & Hdel & Hret).
    apply Attempt_ret_Returned in Hret as [<- ->].
    apply statement_Returned in Hdel.
    unfold mbind, Task_bind. cbv zeta.
    destruct (purchase_items pu) as [items|].
    + apply (Pg_items_loop_Returned minus_quantity) in Hloop.
      match goal with
      | |- context [for_of items ?f db1] =>
          change (for_of items f db1) with (for_of items (apply_item minus_quantity) db1)
      end.
      rewrite Hloop. cbn [fst snd]. by rewrite Hdel.
    + apply Attempt_ret_Returned in Hloop as [_ ->].
      unfold mret, Task_ret. cbn [fst snd]. by rewrite Hdel.
  - by apply Attempt_ret_Returned in H as [<- ->].
Qed.

Lemma Pg_deleteSale_Returned id db r db' :
  Pg.deleteSale id db = (Returned r, db') → deleteSale id db = (r, db').
Proof.
  unfold Pg.deleteSale. intros H.
  apply Attempt_bind_Returned in H as (sa & db1 & Hsel & H).
  apply statement_Returned in Hsel.
  unfold deleteSale, mbind at 1, Task_bind at 1. cbv zeta.
  rewrite Hsel. cbn [fst snd].
  destruct sa as [sa|].
  - apply Attempt_bind_Returned in H as ([] & db2 & Hloop & H).
    apply Attempt_bind_Returned in H as (res & db3 & Hdel & Hret).
    apply Attempt_ret_Returned in Hret as [<- ->].
    apply statement_Returned in Hdel.
    unfold mbind, Task_bind. cbv zeta.
    destruct (sale_items sa) as [items|].
    + apply (Pg_items_loop_Returned plus_quantity) in Hloop.
      match goal with
      | |- context [for_of items ?f db1] =>
          change (for_of items f db1) with (for_of items (apply_item plus_quantity) db1)
      end.
      rewrite Hloop. cbn [fst snd]. by rewrite Hdel.
    + apply Attempt_ret_Returned in Hloop as [_ ->].
      unfold mret, Task_ret. cbn [fst snd]. by rewrite Hdel.
  - by apply Attempt_ret_Returned in H as [<- ->].
Qed.

Lemma ledger_attempt_Returned op db db' :
  ledger_attempt op db = (Returned (), db') → ledger_step op db = ((), db').
Proof.
  destruct op as [p|s|id|id]; unfold ledger_attempt, ledger_step; intros H;
    apply Attempt_bind_Returned in H as (r & db1 & Hcall & Hret);
    apply Attempt_ret_Returned in Hret as [_ ->];
    unfold mbind, Task_bind, mret, Task_ret; cbv zeta.
  - by rewrite (Pg_createPurchase_Returned _ _ _ _ Hcall).
  - by rewrite (Pg_createSale_Returned _ _ _ _ Hcall).
  - by rewrite (Pg_deletePurchase_Returned _ _ _ _ Hcall).
  - by rewrite (Pg_deleteSale_Returned _ _ _ _ Hcall).
Qed.

Lemma ledger_attempts_Returned ops db db' :
  ledger_attempts ops db = (Returned (), db') → ledger_run ops db = ((), db').
Proof.
  revert db. induction ops as [|op ops IH]; intros db.
  - by intros [= ->].
  - unfold ledger_attempts. simpl. intros H.
    apply Attempt_bind_Returned in H as ([] & db1 & Hop & Hrest).
    rewrite ledger_run_cons, (ledger_attempt_Returned _ _ _ Hop). cbn [snd].
    by apply IH.
Qed.

(** The store refuses the stock update of a purchase of 2147483647 units
    of a product with stock 10: the call raises after its row was
    stored. *)
Example scenario_refused_update :
  Pg.updateProductStock 1 2147483647 db_X1 = (Raised, db_X1) ∧
  (Pg.createPurchase purchase_max db_X1).1 = Raised ∧
  (Pg.createPurchase purchase_max db_X1).2
  = (insert_returning Purchases purchase_max db_X1).2.
Proof. by vm_compute. Qed.

(** C1, counterexample.  No purchase and no sale exists and product 1 has
    stock 10.  [createPurchase] of 2147483647 units of it raises at the
    stock update, which the store refuses; the purchase row inserted
    before stays stored and the stock stays 10, which is not 10 plus the
    quantity of the existing purchase. *)
Lemma refused_purchase_stays_recorded :
  let res := ledger_attempts [CreatePurchase purchase_max] db_X1 in
  res.1 = Raised ∧
  rows (purchases db_X1) = ∅ ∧ rows (sales db_X1) = ∅ ∧
  stock_of db_X1 1 = Some 10 ∧
  rows (purchases res.2) !! 1 = Some purchase_max ∧
  purchased res.2 1 = 2147483647 ∧
  sold res.2 1 = 0 ∧
  stock_of res.2 1 = Some 10 ∧
  stock_of res.2 1 ≠ Some (10 + purchased res.2 1 - sold res.2 1).
Proof. by vm_compute. Qed.

(** C1, amended.  For a product [P] of a well-formed store and any
    sequence of [createPurchase], [createSale], [deletePurchase] and
    [deleteSale] calls every one of which returns (the store refuses none
    of their statements), the stock of [P] moves by the change in the
    quantities that the line items referencing [P] carry in the existing
    purchases, minus the change of those in the existing sales.  When no
    purchase and no sale exists before the sequence, the stock of [P]
    after it is its initial stock, plus the quantities of the line items
    that reference [P] in the purchases that exist after the sequence,
    minus those in the sales that exist after the sequence. *)
Theorem stock_reflects_existing_transactions
    (db db' : Db) (ops : list LedgerOp) (P : Z) (p : Product) :
  wf_Db db →
  rows (products db) !! P = Some p →
  ledger_attempts ops db = (Returned (), db') →
  stock_of db' P
  = Some (stock p + (purchased db' P - purchased db P)
                  - (sold db' P - sold db P)) ∧
  (rows (purchases db) = ∅ → rows (sales db) = ∅ →
   stock_of db' P = Some (stock p + purchased db' P - sold db' P)).
Proof.
  intros Hwf HP Hrun. apply ledger_attempts_Returned in Hrun.
  assert (HP0 : P ≠ 0).
  { destruct Hwf as ([_ Hprod] & _). specialize (Hprod _ _ HP). simpl in Hprod. lia. }
  destruct Hwf as (_ & _ & _ & _ & _ & _ & Hwpu & Hwsa & _).
  destruct (ledger_run_inv ops db P Hwpu Hwsa HP0) as (_ & _ & Hst).
  rewrite Hrun in Hst. cbn [snd] in Hst.
  rewrite Hst. unfold stock_of. rewrite HP. simpl. split; [done|].
  intros Hpu Hsa. unfold purchased at 2, sold at 2.
  rewrite Hpu, Hsa, !table_sum_empty. f_equal. lia.
Qed.

Lemma stock_reflects_existing_transactions_witness :
  let ops := [CreatePurchase purchase_20; CreateSale sale_25;
              CreatePurchase purchase_20; DeletePurchase 1; DeleteSale 7] in
  let res := ledger_attempts ops db_X1 in
  res.1 = Returned () ∧
  stock_of res.2 1 = Some (10 + purchased res.2 1 - sold res.2 1).
Proof.
  intros ops res. split; [reflexivity|].
  apply (stock_reflects_existing_transactions db_X1 res.2 ops 1
           (mkProduct "X1" 10 (Some 5) true)).
  - apply (bool_decide_unpack _). by vm_compute.
  - reflexivity.
  - reflexivity.
  - reflexivity.
  - reflexivity.
Defined.

Example scenario_ledger_run :
  let ops := [CreatePurchase purchase_20; CreateSale sale_25;
              CreatePurchase purchase_20; DeletePurchase 1; DeleteSale 7] in
  let db' := (ledger_run ops db_X1).2 in
  stock_of db' 1 = Some 5 ∧ purchased db' 1 = 20 ∧ sold db' 1 = 25.
Proof. by vm_compute. Qed.







(** C9. When [id] is the key of no purchase (respectively no sale),
    [deletePurchase id] (respectively [deleteSale id]) returns [false] and
    leaves the whole store as it was: no row is deleted and no stock is
    changed. *)
Theorem delete_missing_transaction_is_noop (db : Db) (id : Z) :
  (rows (purchases db) !! id = None →
   deletePurchase id db = (false, db) ∧
   rows (purchases (deletePurchase id db).2) = rows (purchases db) ∧
   ∀ P, stock_of (deletePurchase id db).2 P = stock_of db P) ∧
  (rows (sales db) !! id = None →
   deleteSale id db = (false, db) ∧
   rows (sales (deleteSale id db).2) = rows (sales db) ∧
   ∀ P, stock_of (deleteSale id db).2 P = stock_of db P).
Proof.
  split; intros Hid.
  - by rewrite deletePurchase_None.
  - by rewrite deleteSale_None.
Qed.

Lemma delete_missing_transaction_is_noop_witness :
  deletePurchase 7 db_X1_traded = (false, db_X1_traded) ∧
  deleteSale 7 db_X1_traded = (false, db_X1_traded).
Proof.
  split.
  - apply (proj1 (delete_missing_transaction_is_noop db_X1_traded 7)). reflexivity.
  - apply (proj2 (delete_missing_transaction_is_noop db_X1_traded 7)). reflexivity.
Defined.

(** ** Default-template exclusivity *)

Lemma clear_defaults_no_default m k : ¬ default_at (clear_defaults m) k.
Proof.
  intros (t & Hk & Ht). unfold clear_defaults in Hk.
  rewrite lookup_fmap in Hk. destruct (m !! k) as [t0|]; simplify_eq/=.
  by destruct (isDefault t0) eqn:E; simpl in Ht; rewrite ?E in Ht.
Qed.

Lemma clear_defaults_lookup_None m k :
  clear_defaults m !! k = None ↔ m !! k = None.
Proof. unfold clear_defaults. rewrite lookup_fmap. apply fmap_None. Qed.

Lemma createInvoiceTemplate_eq t db :
  let T := invoiceTemplates db in
  let flag := truthy_flag (it_isDefault t) in
  let row := mkInvoiceTemplate (it_name t) (it_template t) flag in
  createInvoiceTemplate t db
  = ((id_seq T, row),
     set_invoiceTemplates
       (mkTable (<[id_seq T := row]>
                   (if flag then clear_defaults (rows T) else rows T))
                (id_seq T + 1)) db).
Proof.
  unfold createInvoiceTemplate. cbv zeta.
  by destruct (truthy_flag (it_isDefault t)).
Qed.

Lemma updateInvoiceTemplate_eq id u db :
  let T := invoiceTemplates db in
  let m := if truthy_flag (upd_isDefault u) then clear_defaults (rows T)
           else rows T in
  (updateInvoiceTemplate id u db).1 = merge_template u <$> m !! id ∧
  rows (invoiceTemplates (updateInvoiceTemplate id u db).2)
  = match m !! id with
    | Some t => <[id := merge_template u t]> m
    | None => m
    end ∧
  id_seq (invoiceTemplates (updateInvoiceTemplate id u db).2) = id_seq T.
Proof.
  unfold updateInvoiceTemplate. cbv zeta.
  destruct (truthy_flag (upd_isDefault u)); task_simpl;
    unfold update_by_id; simpl.
  - fold (clear_defaults (rows (invoiceTemplates db))).
    by destruct (clear_defaults (rows (invoiceTemplates db)) !! id).
  - by destruct (rows (invoiceTemplates db) !! id).
Qed.

Lemma template_step_inv op db :
  at_most_one_default db → at_most_one_default (template_step op db).2.
Proof.
  intros Hdb. destruct op as [t|id u];
    unfold template_step, mbind, Task_bind, mret, Task_ret;
    cbv beta zeta; cbn [fst snd].
  - rewrite createInvoiceTemplate_eq. simpl.
    destruct (truthy_flag (it_isDefault t)) eqn:Hflag.
    + assert (Hone : ∀ k, default_at (<[id_seq (invoiceTemplates db) :=
                 mkInvoiceTemplate (it_name t) (it_template t) true]>
                 (clear_defaults (rows (invoiceTemplates db)))) k →
               k = id_seq (invoiceTemplates db)).
      { intros k (r & Hk & Hr).
        destruct (decide (id_seq (invoiceTemplates db) = k)) as [|Hne]; [done|].
        rewrite lookup_insert_ne in Hk by done.
        destruct (clear_defaults_no_default (rows (invoiceTemplates db)) k).
        by exists r. }
      intros i j Hi Hj. unfold at_most_one_default in *. simpl in *.
      by rewrite (Hone i Hi), (Hone j Hj).
    + assert (Hsub : ∀ k, default_at (<[id_seq (invoiceTemplates db) :=
                 mkInvoiceTemplate (it_name t) (it_template t) false]>
                 (rows (invoiceTemplates db))) k →
               default_at (rows (invoiceTemplates db)) k).
      { intros k (r & Hk & Hr).
        destruct (decide (id_seq (invoiceTemplates db) = k)) as [<-|Hne].
        - rewrite lookup_insert_eq in Hk. by simplify_eq/=.
        - rewrite lookup_insert_ne in Hk by done. by exists r. }
      intros i j Hi Hj. apply Hdb; by apply Hsub.
  - destruct (updateInvoiceTemplate_eq id u db) as (_ & Hrows & _).
    intros i j. unfold at_most_one_default in *. rewrite Hrows. clear Hrows.
    destruct (truthy_flag (upd_isDefault u)) eqn:Hflag.
    + assert (Hone : ∀ k, default_at
                 match clear_defaults (rows (invoiceTemplates db)) !! id with
                 | Some t => <[id := merge_template u t]>
                               (clear_defaults (rows (invoiceTemplates db)))
                 | None => clear_defaults (rows (invoiceTemplates db))
                 end k → k = id).
      { intros k Hk.
        destruct (clear_defaults (rows (invoiceTemplates db)) !! id) eqn:Hid.
        - destruct Hk as (r & Hk & Hr).
          destruct (decide (id = k)) as [|Hne]; [done|].
          rewrite lookup_insert_ne in Hk by done.
          destruct (clear_defaults_no_default (rows (invoiceTemplates db)) k).
          by exists r.
        - by destruct (clear_defaults_no_default _ _ Hk). }
      intros Hi Hj. by rewrite (Hone i Hi), (Hone j Hj).
    + assert (Hsub : ∀ k, default_at
                 match rows (invoiceTemplates db) !! id with
                 | Some t => <[id := merge_template u t]> (rows (invoiceTemplates db))
                 | None => rows (invoiceTemplates db)
                 end k → default_at (rows (invoiceTemplates db)) k).
      { intros k Hk.
        destruct (rows (invoiceTemplates db) !! id) as [t0|] eqn:Hid; [|done].
        destruct Hk as (r & Hk & Hr).
        destruct (decide (id = k)) as [<-|Hne].
        - rewrite lookup_insert_eq in Hk. simplify_eq/=. exists t0. split; [done|].
          destruct (upd_isDefault u) as [[]|]; simplify_eq/=; done.
        - rewrite lookup_insert_ne in Hk by done. by exists r. }
      intros Hi Hj. apply Hdb; by apply Hsub.
Qed.

Lemma template_run_inv ops db :
  at_most_one_default db → at_most_one_default (template_run ops db).2.
Proof.
  revert db. induction ops as [|op ops IH]; intros db Hdb; [done|].
  change (template_run (op :: ops) db)
    with (template_run ops (template_step op db).2).
  by apply IH, template_step_inv.
Qed.

Lemma clear_defaults_fmap m : clear_defaults m = set_isDefault false <$> m.
Proof.
  unfold clear_defaults. apply map_fmap_ext. intros k t _.
  by destruct t as [? ? []].
Qed.

Lemma first_default_None (m : gmap Z InvoiceTemplate) :
  (∀ k, ¬ default_at m k) →
  head (map_to_list (filter (λ kv, isDefault kv.2 = true) m)) = None.
Proof.
  intros Hnone.
  replace (filter _ _) with (∅ : gmap Z InvoiceTemplate);
    [by rewrite map_to_list_empty|].
  symmetry. apply map_empty_filter. intros k t Hk Ht. simpl in Ht.
  apply (Hnone k). by exists t.
Qed.

Lemma first_default_unique (m : gmap Z InvoiceTemplate) k t :
  m !! k = Some t →
  (∀ j, default_at m j ↔ j = k) →
  head (map_to_list (filter (λ kv, isDefault kv.2 = true) m)) = Some (k, t).
Proof.
  intros Hk Honly.
  replace (filter _ _) with ({[k := t]} : gmap Z InvoiceTemplate);
    [by rewrite map_to_list_singleton|].
  apply map_eq. intros j. apply option_eq. intros x.
  rewrite map_lookup_filter_Some, lookup_singleton_Some. simpl. split.
  - intros [<- <-]. split; [done|].
    destruct (proj2 (Honly k) eq_refl) as (t0 & Ht0 & Hd). by simplify_eq.
  - intros [Hj Hd]. assert (j = k) as -> by (apply Honly; by exists x).
    by simplify_eq.
Qed.

Lemma getDefaultInvoiceTemplate_None db :
  (∀ k, ¬ default_at (rows (invoiceTemplates db)) k) →
  (getDefaultInvoiceTemplate db).1 = None.
Proof. apply first_default_None. Qed.

(** C2. The default-template rule is an invariant of every sequence of
    [createInvoiceTemplate] and [updateInvoiceTemplate] calls, so it holds
    after every such sequence that starts without templates; and after two
    successive creations with [isDefault: true] the row of the second one,
    and no other row, is default. *)
Theorem at_most_one_default_template :
  (∀ db ops, at_most_one_default db →
             at_most_one_default (template_run ops db).2) ∧
  (∀ db ops, rows (invoiceTemplates db) = ∅ →
             at_most_one_default (template_run ops db).2) ∧
  (∀ db t1 t2, it_isDefault t1 = Some true → it_isDefault t2 = Some true →
     let r1 := createInvoiceTemplate t1 db in
     let r2 := createInvoiceTemplate t2 r1.2 in
     let m := rows (invoiceTemplates r2.2) in
     r1.1.1 ≠ r2.1.1 ∧
     isDefault <$> m !! r1.1.1 = Some false ∧
     isDefault <$> m !! r2.1.1 = Some true ∧
     (∀ k, default_at m k ↔ k = r2.1.1) ∧
     (getDefaultInvoiceTemplate r2.2).1 = Some r2.1).
Proof.
  split_and!.
  - intros db ops. apply template_run_inv.
  - intros db ops Hempty. apply template_run_inv.
    intros i j (t & Ht & _). by rewrite Hempty, lookup_empty in Ht.
  - intros db t1 t2 H1 H2. cbv zeta. rewrite !createInvoiceTemplate_eq. cbv zeta.
    rewrite H1, H2. simpl.
    set (n := id_seq (invoiceTemplates db)).
    set (m0 := clear_defaults (rows (invoiceTemplates db))).
    set (row1 := mkInvoiceTemplate (it_name t1) (it_template t1) true).
    set (row2 := mkInvoiceTemplate (it_name t2) (it_template t2) true).
    assert (Hne : n ≠ n + 1) by lia.
    assert (Honly : ∀ k, default_at (<[n + 1 := row2]>
                                       (clear_defaults (<[n := row1]> m0))) k
                         ↔ k = n + 1).
    { intros k. split.
      - intros (r & Hk & Hr). destruct (decide (n + 1 = k)) as [|Hk']; [done|].
        rewrite lookup_insert_ne in Hk by done.
        destruct (clear_defaults_no_default (<[n := row1]> m0) k). by exists r.
      - intros ->. exists row2. by rewrite lookup_insert_eq. }
    split_and!.
    + done.
    + rewrite lookup_insert_ne by lia. unfold clear_defaults.
      by rewrite lookup_fmap, lookup_insert_eq.
    + by rewrite lookup_insert_eq.
    + done.
    + apply first_default_unique; [by rewrite lookup_insert_eq | done].
Qed.

Lemma at_most_one_default_template_witness :
  at_most_one_default
    (template_run
       [CreateTemplate template_A; CreateTemplate template_B;
        UpdateTemplate 1 (mkInvoiceTemplateUpdate None None (Some true));
        UpdateTemplate 9 (mkInvoiceTemplateUpdate (Some "C"%string) None None)]
       empty_db).2 ∧
  (getDefaultInvoiceTemplate
     (createInvoiceTemplate template_B
        (createInvoiceTemplate template_A empty_db).2).2).1
  = Some (2, mkInvoiceTemplate "B" "<b/>" true).
Proof.
  destruct at_most_one_default_template as (_ & Hrun & Htwo). split.
  - apply (Hrun empty_db). reflexivity.
  - apply (Htwo empty_db template_A template_B); reflexivity.
Defined.

(** Scenario of the specification: two templates created as default in
    turn; then the first is made default again by an update. *)
Example scenario_templates :
  let db2 := (template_run [CreateTemplate template_A; CreateTemplate template_B]
                empty_db).2 in
  let db3 := (updateInvoiceTemplate 1
                (mkInvoiceTemplateUpdate None None (Some true)) db2).2 in
  isDefault <$> rows (invoiceTemplates db2) = {[ 1 := false; 2 := true ]} ∧
  isDefault <$> rows (invoiceTemplates db3) = {[ 1 := true; 2 := false ]}.
Proof. by vm_compute. Qed.

(** C10. [updateInvoiceTemplate] with [isDefault: true] and a key that
    matches no row still clears [isDefault] on every row, returns no row,
    and so leaves the table without any default template. *)
Theorem update_missing_template_clears_default
    (db : Db) (id : Z) (u : InvoiceTemplateUpdate) :
  rows (invoiceTemplates db) !! id = None →
  upd_isDefault u = Some true →
  let r := updateInvoiceTemplate id u db in
  r.1 = None ∧
  rows (invoiceTemplates r.2)
  = set_isDefault false <$> rows (invoiceTemplates db) ∧
  (∀ k, ¬ default_at (rows (invoiceTemplates r.2)) k) ∧
  (getDefaultInvoiceTemplate r.2).1 = None.
Proof.
  intros Hid Hu r. subst r.
  destruct (updateInvoiceTemplate_eq id u db) as (Hres & Hrows & _).
  cbv zeta in Hres, Hrows. rewrite Hu in Hres, Hrows. simpl in Hres, Hrows.
  assert (Hnone : clear_defaults (rows (invoiceTemplates db)) !! id = None)
    by by apply clear_defaults_lookup_None.
  rewrite Hnone in Hres, Hrows.
  assert (Hno : ∀ k, ¬ default_at
            (rows (invoiceTemplates (updateInvoiceTemplate id u db).2)) k).
  { intros k. rewrite Hrows. apply clear_defaults_no_default. }
  split_and!.
  - done.
  - by rewrite Hrows, clear_defaults_fmap.
  - done.
  - by apply getDefaultInvoiceTemplate_None.
Qed.

Lemma update_missing_template_clears_default_witness :
  let r := updateInvoiceTemplate 5
             (mkInvoiceTemplateUpdate None None (Some true)) db_template_A in
  (getDefaultInvoiceTemplate db_template_A).1
  = Some (1, mkInvoiceTemplate "A" "<a/>" true) ∧
  r.1 = None ∧
  rows (invoiceTemplates r.2) !! 1 = Some (mkInvoiceTemplate "A" "<a/>" false) ∧
  (getDefaultInvoiceTemplate r.2).1 = None.
Proof.
  pose proof (update_missing_template_clears_default db_template_A 5
                (mkInvoiceTemplateUpdate None None (Some true))
                eq_refl eq_refl) as (H1 & H2 & _ & H4).
  split_and!; [by vm_compute | exact H1 | by rewrite H2 | exact H4].
Defined.

(** ** Approval workflow *)

Lemma update_by_id_approve (T : TableRef Partner) k db :
  (∀ d, tbl_set T (tbl_get T d) d = d) →
  (update_by_id T (set_isApproved true) k db).2 = approve_in T k db.
Proof.
  intros Hset. unfold update_by_id, approve_in. simpl.
  destruct (rows (tbl_get T db) !! k) as [e|] eqn:Hk; simpl.
  - do 2 f_equal. apply map_eq. intros j.
    destruct (decide (k = j)) as [<-|Hne].
    + by rewrite lookup_insert_eq, lookup_alter_eq, Hk.
    + by rewrite lookup_insert_ne, lookup_alter_ne.
  - rewrite <- (Hset db) at 1. do 2 f_equal.
    destruct (tbl_get T db) as [m n]. simpl in *. f_equal.
    apply map_eq. intros j. destruct (decide (k = j)) as [<-|Hne].
    + by rewrite lookup_alter_eq, Hk.
    + by rewrite lookup_alter_ne.
Qed.

Lemma update_by_id_Some {A} (T : TableRef A) f id db r :
  rows (tbl_get T db) !! id = Some r →
  update_by_id T f id db
  = (Some (f r),
     tbl_set T (mkTable (<[id := f r]> (rows (tbl_get T db)))
                        (id_seq (tbl_get T db))) db).
Proof. intros Hid. unfold update_by_id. by rewrite Hid. Qed.

Lemma updateApprovalRequest_None id u db :
  rows (approvalRequests db) !! id = None →
  updateApprovalRequest id u db = (None, db).
Proof.
  intros Hid. unfold updateApprovalRequest, update_by_id. task_simpl.
  by rewrite Hid.
Qed.

Lemma updateApprovalRequest_Some id u r db :
  rows (approvalRequests db) !! id = Some r →
  let req := merge_request u r in
  let db1 := with_request id req db in
  updateApprovalRequest id u db
  = (Some req,
     if is_string (au_status u) "approved" then
       if String.eqb (entityType req) "vendor" then
         approve_in Vendors (entityId req) db1
       else if String.eqb (entityType req) "distributor" then
         approve_in Distributors (entityId req) db1
       else if String.eqb (entityType req) "retailer" then
         approve_in Retailers (entityId req) db1
       else if String.eqb (entityType req) "billedEntity" then
         approve_in BilledEntities (entityId req) db1
       else db1
     else db1).
Proof.
  intros Hid req db1. unfold updateApprovalRequest.
  unfold mbind, Task_bind, mret, Task_ret. cbv beta zeta.
  rewrite (update_by_id_Some ApprovalRequests _ _ _ r Hid). cbn [fst snd].
  change (tbl_set ApprovalRequests _ db) with db1.
  fold req.
  destruct (is_string (au_status u) "approved") eqn:Happ; cbn [orb].
  - destruct (String.eqb (entityType req) "vendor"); [|
    destruct (String.eqb (entityType req) "distributor"); [|
    destruct (String.eqb (entityType req) "retailer"); [|
    destruct (String.eqb (entityType req) "billedEntity")]]];
      cbn [fst snd]; try done;
      f_equal; apply update_by_id_approve; by intros [].
  - by destruct (is_string (au_status u) "rejected").
Qed.

Lemma putApprovalRequest_found id target notes r db :
  rows (approvalRequests db) !! id = Some r →
  target = "approved"%string ∨ target = "rejected"%string →
  putApprovalRequest id (Some target) notes db
  = (Json 200 (merge_request (decision target notes) r),
     (updateApprovalRequest id (decision target notes) db).2).
Proof.
  intros Hid Htarget. unfold putApprovalRequest.
  assert (is_string (Some target) "approved" || is_string (Some target) "rejected"
          = true) as ->.
  { destruct Htarget as [-> | ->]; reflexivity. }
  cbn [negb]. unfold mbind, Task_bind, mret, Task_ret. cbv beta zeta.
  fold (decision target notes).
  by rewrite (updateApprovalRequest_Some _ _ r).
Qed.

Lemma approve_in_requests T k db :
  (∀ t d, approvalRequests (tbl_set T t d) = approvalRequests d) →
  approvalRequests (approve_in T k db) = approvalRequests db.
Proof. intros Hframe. unfold approve_in. apply Hframe. Qed.

(** The request row after [updateApprovalRequest] found it. *)
Lemma updateApprovalRequest_row id u r db :
  rows (approvalRequests db) !! id = Some r →
  rows (approvalRequests (updateApprovalRequest id u db).2) !! id
  = Some (merge_request u r).
Proof.
  intros Hid. rewrite (updateApprovalRequest_Some _ _ r) by done. cbv zeta.
  cbn [snd].
  assert (rows (approvalRequests (with_request id (merge_request u r) db)) !! id
          = Some (merge_request u r)) as Hrow.
  { unfold with_request. simpl. by rewrite lookup_insert_eq. }
  repeat match goal with
         | |- context [if ?b then _ else _] => destruct b
         end; try done;
    by rewrite approve_in_requests.
Qed.

(** Scenario of the specification: creating a vendor opens one pending
    request for it; the approval sets the vendor's flag and the status. *)
Example scenario_vendor :
  rows (approvalRequests db_vendor_pending)
  = {[ 1 := mkApprovalRequest "vendor" 1 1 "pending"
              (Some "New vendor Acme added by Admin"%string) ]} ∧
  (getPendingApprovalRequests db_vendor_pending).1
  = rows (approvalRequests db_vendor_pending) ∧
  isApproved <$> rows (vendors db_vendor_pending) !! 1 = Some false ∧
  isApproved <$> rows (vendors db_vendor_approved) !! 1 = Some true ∧
  status <$> rows (approvalRequests db_vendor_approved) !! 1
  = Some "approved"%string.
Proof. by vm_compute. Qed.

(** C3, counterexample.  Request 1 is approved; deciding it as rejected
    turns its status into rejected. *)
Lemma approved_request_becomes_rejected :
  status <$> rows (approvalRequests db_vendor_approved) !! 1
  = Some "approved"%string ∧
  status <$> rows (approvalRequests
               (putApprovalRequest 1 (Some "rejected"%string) None
                  db_vendor_approved).2) !! 1
  = Some "rejected"%string.
Proof. by vm_compute. Qed.

(** C3, amended.  A decision (approved or rejected) on an existing request
    always sets the request's status to the target of the decision,
    whatever the status was before: the code has no terminal status. *)
Theorem decision_overwrites_status
    (db : Db) (id : Z) (r : ApprovalRequest) (target : string)
    (notes : option (option string)) :
  rows (approvalRequests db) !! id = Some r →
  target = "approved"%string ∨ target = "rejected"%string →
  let res := putApprovalRequest id (Some target) notes db in
  (∃ r', res.1 = Json 200 r' ∧ status r' = target) ∧
  status <$> rows (approvalRequests res.2) !! id = Some target.
Proof.
  intros Hid Htarget res. subst res.
  rewrite (putApprovalRequest_found _ _ _ r) by done. cbn [fst snd]. split.
  - by eexists.
  - by rewrite (updateApprovalRequest_row _ _ r).
Qed.

Lemma decision_overwrites_status_witness :
  status <$> rows (approvalRequests
               (putApprovalRequest 1 (Some "rejected"%string) None
                  db_vendor_approved).2) !! 1
  = Some "rejected"%string.
Proof.
  apply (decision_overwrites_status db_vendor_approved 1
           (mkApprovalRequest "vendor" 1 1 "approved"
              (Some "New vendor Acme added by Admin"%string))
           "rejected" None).
  - reflexivity.
  - right. reflexivity.
Defined.

(** The store a decision leaves behind, by the tag of the request. *)
Lemma approved_store id notes r db :
  rows (approvalRequests db) !! id = Some r →
  let db1 := with_request id (merge_request (decision "approved" notes) r) db in
  (putApprovalRequest id (Some "approved"%string) notes db).2
  = if String.eqb (entityType r) "vendor" then
      approve_in Vendors (entityId r) db1
    else if String.eqb (entityType r) "distributor" then
      approve_in Distributors (entityId r) db1
    else if String.eqb (entityType r) "retailer" then
      approve_in Retailers (entityId r) db1
    else if String.eqb (entityType r) "billedEntity" then
      approve_in BilledEntities (entityId r) db1
    else db1.
Proof.
  intros Hid db1. rewrite (putApprovalRequest_found _ _ _ r) by auto.
  by rewrite (updateApprovalRequest_Some _ _ r).
Qed.

Lemma rejected_store id notes r db :
  rows (approvalRequests db) !! id = Some r →
  (putApprovalRequest id (Some "rejected"%string) notes db).2
  = with_request id (merge_request (decision "rejected" notes) r) db.
Proof.
  intros Hid. rewrite (putApprovalRequest_found _ _ _ r) by auto.
  by rewrite (updateApprovalRequest_Some _ _ r).
Qed.

(** C5. Approving a request whose [entityType] is "vendor" sets
    [isApproved] on the vendor whose key is the request's [entityId], leaves
    every other vendor row and every other partner table as it was; and
    rejecting it leaves all partner tables as they were. *)
Theorem approve_vendor_request_frame
    (db : Db) (id : Z) (r : ApprovalRequest) (notes : option (option string)) :
  rows (approvalRequests db) !! id = Some r →
  entityType r = "vendor"%string →
  let approved := (putApprovalRequest id (Some "approved"%string) notes db).2 in
  let rejected := (putApprovalRequest id (Some "rejected"%string) notes db).2 in
  rows (vendors approved) !! entityId r
  = set_isApproved true <$> rows (vendors db) !! entityId r ∧
  (∀ k, k ≠ entityId r → rows (vendors approved) !! k = rows (vendors db) !! k) ∧
  suppliers approved = suppliers db ∧
  distributors approved = distributors db ∧
  retailers approved = retailers db ∧
  billedEntities approved = billedEntities db ∧
  partner_tables rejected = partner_tables db.
Proof.
  intros Hid Htype approved rejected. subst approved rejected.
  rewrite (approved_store _ _ r), (rejected_store _ _ r) by done.
  cbv zeta. rewrite Htype. cbn [String.eqb Ascii.eqb Bool.eqb].
  unfold approve_in, with_request. simpl. split_and!; try done.
  - by rewrite lookup_alter_eq.
  - intros k Hk. by rewrite lookup_alter_ne.
Qed.

Lemma approve_vendor_request_frame_witness :
  let approved :=
    (putApprovalRequest 1 (Some "approved"%string) None db_vendor_pending).2 in
  let rejected :=
    (putApprovalRequest 1 (Some "rejected"%string) None db_vendor_pending).2 in
  rows (vendors approved) !! 1 = Some (mkPartner "Acme" true true) ∧
  partner_tables rejected = partner_tables db_vendor_pending.
Proof.
  pose proof (approve_vendor_request_frame db_vendor_pending 1
                (mkApprovalRequest "vendor" 1 1 "pending"
                   (Some "New vendor Acme added by Admin"%string))
                None eq_refl eq_refl) as (H1 & _ & _ & _ & _ & _ & H7).
  split; [exact H1 | exact H7].
Defined.

(** C6. [createApprovalRequest] stores, under the next key of the
    sequence, a request that carries the [entityType], [entityId],
    [requestedBy] and [notes] of its argument and the status "pending",
    whatever [status] the argument carries: the call does the same with
    and without that key.  The stored row is the one returned, it is read
    back by [getApprovalRequest] and listed by
    [getPendingApprovalRequests], the rows under other keys are those of
    before and no other table changes.  [status] is not among the keys
    [insertApprovalRequestSchema] accepts. *)
Theorem createApprovalRequest_status_pending
    (db : Db) (insertRequest : InsertApprovalRequest) :
  let res := createApprovalRequest insertRequest db in
  res.1.1 = id_seq (approvalRequests db) ∧
  res.1.2 = mkApprovalRequest (ins_entityType insertRequest)
              (ins_entityId insertRequest) (ins_requestedBy insertRequest)
              "pending" (ins_notes insertRequest) ∧
  status res.1.2 = "pending"%string ∧
  rows (approvalRequests res.2) !! res.1.1 = Some res.1.2 ∧
  (getApprovalRequest res.1.1 res.2).1 = Some res.1.2 ∧
  (getPendingApprovalRequests res.2).1 !! res.1.1 = Some res.1.2 ∧
  (∀ k, k ≠ res.1.1 →
        rows (approvalRequests res.2) !! k = rows (approvalRequests db) !! k) ∧
  id_seq (approvalRequests res.2) = res.1.1 + 1 ∧
  set_approvalRequests (approvalRequests res.2) db = res.2 ∧
  (∀ s, createApprovalRequest
          (mkInsertApprovalRequest (ins_entityType insertRequest)
             (ins_entityId insertRequest) (ins_requestedBy insertRequest)
             (ins_notes insertRequest) s) db = res) ∧
  ("status"%string ∉ insertApprovalRequestSchema) ∧
  insertApprovalRequestSchema
  = ["entityType"; "entityId"; "requestedBy"; "notes"]%string.
Proof.
  cbv zeta. unfold createApprovalRequest, insert_returning. simpl.
  split_and!.
  - done.
  - done.
  - done.
  - by rewrite lookup_insert_eq.
  - unfold getApprovalRequest, select_by_id. simpl. by rewrite lookup_insert_eq.
  - unfold getPendingApprovalRequests, select_where. simpl.
    apply map_lookup_filter_Some. split; [by rewrite lookup_insert_eq | done].
  - intros k Hk. by rewrite lookup_insert_ne.
  - done.
  - done.
  - done.
  - unfold insertApprovalRequestSchema. rewrite list_elem_of_filter.
    intros [Hno _]. apply Hno. unfold insertApprovalRequestSchema_omit.
    apply (bool_decide_unpack _). by vm_compute.
  - by vm_compute.
Qed.

Example createApprovalRequest_ignores_status :
  status (createApprovalRequest
            (mkInsertApprovalRequest "vendor" 1 1 None (Some "approved"%string))
            empty_db).1.2
  = "pending"%string.
Proof. reflexivity. Qed.

(** C7. Approving a request whose [entityType] has no case in the switch
    (such as "supplier") rewrites the request with status "approved" and
    answers normally, and leaves all five partner tables as they were. *)
Theorem unknown_entity_type_is_ignored
    (db : Db) (id : Z) (r : ApprovalRequest) (notes : option (option string)) :
  rows (approvalRequests db) !! id = Some r →
  entityType r ∉ approvable →
  let res := putApprovalRequest id (Some "approved"%string) notes db in
  res.1 = Json 200 (merge_request (decision "approved" notes) r) ∧
  status <$> rows (approvalRequests res.2) !! id = Some "approved"%string ∧
  partner_tables res.2 = partner_tables db.
Proof.
  intros Hid Htype res. subst res.
  unfold approvable in Htype.
  repeat (apply not_elem_of_cons in Htype as [?%String.eqb_neq Htype]).
  split_and!.
  - rewrite (putApprovalRequest_found _ _ _ r) by auto. done.
  - rewrite (putApprovalRequest_found _ _ _ r) by auto. cbn [snd].
    by rewrite (updateApprovalRequest_row _ _ r).
  - rewrite (approved_store _ _ r) by done. cbv zeta.
    by repeat match goal with H : String.eqb _ _ = false |- _ => rewrite H; clear H end.
Qed.

Lemma unknown_entity_type_is_ignored_witness :
  let res := putApprovalRequest 1 (Some "approved"%string) None
               db_supplier_pending in
  res.1 = Json 200 (mkApprovalRequest "supplier" 1 1 "approved"
                      (Some "New supplier Acme added by Admin"%string)) ∧
  status <$> rows (approvalRequests res.2) !! 1 = Some "approved"%string ∧
  partner_tables res.2 = partner_tables db_supplier_pending.
Proof.
  apply (unknown_entity_type_is_ignored db_supplier_pending 1
           (mkApprovalRequest "supplier" 1 1 "pending"
              (Some "New supplier Acme added by Admin"%string)) None).
  - reflexivity.
  - unfold approvable. simpl.
    repeat (apply not_elem_of_cons; split; [done|]). apply not_elem_of_nil.
Defined.

Example supplier_stays_unapproved :
  isApproved <$> rows (suppliers
     (putApprovalRequest 1 (Some "approved"%string) None db_supplier_pending).2)
     !! 1
  = Some false.
Proof. by vm_compute. Qed.

(** ** Low-stock query *)

Lemma getLowStockProducts_nonzero db threshold k p :
  threshold ≠ 0 →
  (getLowStockProducts (Some threshold) db).1 !! k = Some p
  ↔ rows (products db) !! k = Some p ∧ at_or_below threshold p.
Proof.
  intros Hne. unfold getLowStockProducts, truthy.
  destruct (Z.eqb_spec threshold 0) as [|_]; [done|]. simpl.
  rewrite map_lookup_filter_Some. simpl. unfold at_or_below.
  rewrite andb_true_iff, Z.leb_le. done.
Qed.

Lemma getLowStockProducts_omitted db k p :
  (getLowStockProducts None db).1 !! k = Some p
  ↔ rows (products db) !! k = Some p ∧ at_or_below_own_minimum p.
Proof.
  unfold getLowStockProducts. simpl.
  rewrite map_lookup_filter_Some. simpl. unfold at_or_below_own_minimum.
  rewrite andb_true_iff. destruct (minStock p) as [m|].
  - rewrite Z.leb_le. split.
    + intros (Hk & Ha & Hle). split_and!; [done..|]. by exists m.
    + intros (Hk & Ha & m' & [= <-] & Hle). done.
  - split.
    + by intros (_ & _ & ?).
    + by intros (_ & _ & m' & ? & _).
Qed.

(** A threshold of 0 is falsy: the call takes the branch of the omitted
    threshold. *)
Lemma getLowStockProducts_zero db :
  getLowStockProducts (Some 0) db = getLowStockProducts None db.
Proof. done. Qed.

(** C8, at the failing input.  [getLowStockProducts(0)] returns the active
    product of stock 5 (minimum stock 10), whose stock is not at or below
    the threshold 0 that was given. *)
Theorem getLowStockProducts_zero_threshold :
  (getLowStockProducts (Some 0) db_low).1 !! 1
  = Some (mkProduct "L1" 5 (Some 10) true) ∧
  ¬ at_or_below 0 (mkProduct "L1" 5 (Some 10) true).
Proof.
  split; [by vm_compute|]. intros [_ Hle]. simpl in Hle. lia.
Qed.

(** ** Well-formedness is preserved *)

Lemma wf_empty_db : wf_Db empty_db.
Proof. apply (bool_decide_unpack _). by vm_compute. Qed.

Lemma wf_table_bump f (t : Table Product) :
  wf_table t → wf_table (mkTable (bump f (rows t)) (id_seq t)).
Proof.
  intros [H1 Hwf]. split; simpl; [done|]. intros k y Hk.
  rewrite lookup_bump in Hk. destruct (rows t !! k) as [x|] eqn:Hx; [|done].
  by apply (Hwf _ _ Hx).
Qed.

Lemma wf_Db_ledger_step op db : wf_Db db → wf_Db (ledger_step op db).2.
Proof.
  intros (Hpr & Hsu & Hve & Hdi & Hre & Hbe & Hpu & Hsa & Hit & Har).
  destruct op as [p|s|id|id];
    unfold ledger_step, mbind, Task_bind, mret, Task_ret; cbv beta zeta.
  - rewrite createPurchase_eq. unfold wf_Db. simpl.
    split_and!; try done; [by apply wf_table_bump | by apply wf_table_insert].
  - rewrite createSale_eq. unfold wf_Db. simpl.
    split_and!; try done; [by apply wf_table_bump | by apply wf_table_insert].
  - destruct (rows (purchases db) !! id) as [p|] eqn:Hp.
    + rewrite (deletePurchase_Some _ p) by done. unfold wf_Db. simpl.
      split_and!; try done; [by apply wf_table_bump | by apply wf_table_delete].
    + rewrite deletePurchase_None by done. by unfold wf_Db.
  - destruct (rows (sales db) !! id) as [s|] eqn:Hs.
    + rewrite (deleteSale_Some _ s) by done. unfold wf_Db. simpl.
      split_and!; try done; [by apply wf_table_bump | by apply wf_table_delete].
    + rewrite deleteSale_None by done. by unfold wf_Db.
Qed.

Lemma wf_Db_ledger_run ops db : wf_Db db → wf_Db (ledger_run ops db).2.
Proof.
  revert db. induction ops as [|op ops IH]; intros db Hwf; [done|].
  rewrite ledger_run_cons. by apply IH, wf_Db_ledger_step.
Qed.

Lemma wf_Db_createProduct ip db : wf_Db db → wf_Db (createProduct ip db).2.
Proof.
  intros (Hpr & Hrest). unfold createProduct, insert_returning, wf_Db. simpl.
  split; [by apply wf_table_insert | done].
Qed.

(** * Further properties of the storage methods and routes *)

(** ** Transactions that are updated or deleted *)









(** ** Soft deletion of products *)

Lemma deleteProduct_Some id p db :
  rows (products db) !! id = Some p →
  deleteProduct id db
  = (true,
     set_products (mkTable (<[id := set_product_isActive false p]> (rows (products db)))
                           (id_seq (products db))) db).
Proof.
  intros Hid. unfold deleteProduct, mbind, Task_bind, mret, Task_ret. cbv beta zeta.
  by rewrite (update_by_id_Some Products _ _ _ p Hid).
Qed.

Lemma deleteProduct_None id db :
  rows (products db) !! id = None → deleteProduct id db = (false, db).
Proof.
  intros Hid. unfold deleteProduct, update_by_id. task_simpl. by rewrite Hid.
Qed.

Lemma getLowStockProducts_active th db k p :
  (getLowStockProducts th db).1 !! k = Some p →
  rows (products db) !! k = Some p ∧ product_isActive p = true.
Proof.
  unfold getLowStockProducts. destruct (truthy th); simpl;
    rewrite map_lookup_filter_Some; simpl; rewrite andb_true_iff; tauto.
Qed.



(** X4. [DELETE /products/:id] answers 404 and leaves the store as it is
    when the key has no row; otherwise it answers 204, and a second call
    on the same key answers 204 again with the store unchanged: a
    soft-deleted product is still found. *)
Theorem deleteProductsId_responses (db : Db) (id : Z) :
  (rows (products db) !! id = None →
   deleteProductsId id db = (Failure 404, db)) ∧
  (is_Some (rows (products db) !! id) →
   let r := deleteProductsId id db in
   r.1 = Json 204 () ∧
   deleteProductsId id r.2 = (Json 204 (), r.2)).
Proof.
  split.
  - intros Hid. unfold deleteProductsId, getProduct, select_by_id. task_simpl.
    by rewrite Hid.
  - intros [p Hid].
    assert (Hstep : ∀ d q, rows (products d) !! id = Some q →
              deleteProductsId id d
              = (Json 204 (),
                 set_products
                   (mkTable (<[id := set_product_isActive false q]> (rows (products d)))
                            (id_seq (products d))) d)).
    { intros d q Hq. unfold deleteProductsId, getProduct, select_by_id.
      unfold mbind, Task_bind, mret, Task_ret. cbv beta zeta.
      cbn [fst snd tbl_get Products]. rewrite Hq.
      by rewrite (deleteProduct_Some _ q). }
    cbv zeta. rewrite (Hstep db p Hid). cbn [fst snd]. split; [done|].
    rewrite (Hstep _ (set_product_isActive false p))
      by (simpl; by rewrite lookup_insert_eq).
    f_equal. unfold set_products. simpl. by rewrite insert_insert_eq.
Qed.

Lemma deleteProductsId_responses_witness :
  deleteProductsId 7 db_X1 = (Failure 404, db_X1) ∧
  (deleteProductsId 1 db_X1).1 = Json 204 () ∧
  deleteProductsId 1 (deleteProductsId 1 db_X1).2
  = (Json 204 (), (deleteProductsId 1 db_X1).2).
Proof.
  destruct (deleteProductsId_responses db_X1 7) as [H404 _].
  destruct (deleteProductsId_responses db_X1 1) as [_ H204].
  destruct (H204 (mk_is_Some _ _ eq_refl)) as [H1 H2].
  split_and!; [exact (H404 eq_refl) | exact H1 | exact H2].
Defined.

(** ** Low stock among the active products *)

(** X5. Whatever the threshold, every product [getLowStockProducts]
    returns is returned by [getAllProducts] as well, so there are never
    more low-stock products than active products. *)
Theorem low_stock_products_are_active (db : Db) (threshold : option Z) :
  (getLowStockProducts threshold db).1 ⊆ (getAllProducts db).1 ∧
  (size (getLowStockProducts threshold db).1 ≤ size (getAllProducts db).1)%nat.
Proof.
  assert (Hsub : (getLowStockProducts threshold db).1 ⊆ (getAllProducts db).1).
  { apply map_subseteq_spec. intros k p Hk.
    apply getLowStockProducts_active in Hk as [Hk Hact].
    unfold getAllProducts. simpl. by apply map_lookup_filter_Some. }
  split; [done | by apply map_subseteq_size].
Qed.

(** ** Line items that reference no stored product *)





(** ** Decisions on approval requests *)

Lemma updateApprovalRequest_requests id u r db :
  rows (approvalRequests db) !! id = Some r →
  approvalRequests (updateApprovalRequest id u db).2
  = mkTable (<[id := merge_request u r]> (rows (approvalRequests db)))
            (id_seq (approvalRequests db)).
Proof.
  intros Hid. rewrite (updateApprovalRequest_Some _ _ r) by done. cbv zeta.
  cbn [snd].
  repeat match goal with
         | |- context [if ?b then _ else _] => destruct b
         end; done.
Qed.

(** X7. [PUT /approval-requests/:id] answers 400 and leaves the store as
    it is for every status other than "approved" and "rejected" (an
    absent one, "pending", ...), whether the key has a row or not; with a
    valid status and a key that has no row it answers 404 and leaves the
    store as it is. *)
Theorem putApprovalRequest_refusals
    (db : Db) (id : Z) (notes : option (option string)) :
  (∀ status, status ≠ Some "approved"%string → status ≠ Some "rejected"%string →
     putApprovalRequest id status notes db = (Failure 400, db)) ∧
  (∀ target, target = "approved"%string ∨ target = "rejected"%string →
     rows (approvalRequests db) !! id = None →
     putApprovalRequest id (Some target) notes db = (Failure 404, db)).
Proof.
  split.
  - intros status Ha Hr. unfold putApprovalRequest.
    assert (is_string status "approved" || is_string status "rejected" = false)
      as ->; [|done].
    destruct status as [s|]; [|done]. simpl.
    destruct (String.eqb_spec s "approved") as [->|_]; [done|].
    destruct (String.eqb_spec s "rejected") as [->|_]; done.
  - intros target Htarget Hid. unfold putApprovalRequest.
    assert (is_string (Some target) "approved" || is_string (Some target) "rejected"
            = true) as ->.
    { destruct Htarget as [-> | ->]; reflexivity. }
    cbn [negb]. unfold mbind, Task_bind, mret, Task_ret. cbv beta zeta.
    by rewrite updateApprovalRequest_None.
Qed.

Lemma putApprovalRequest_refusals_witness :
  putApprovalRequest 1 (Some "pending"%string) None db_vendor_approved
  = (Failure 400, db_vendor_approved) ∧
  putApprovalRequest 1 None None db_vendor_approved
  = (Failure 400, db_vendor_approved) ∧
  putApprovalRequest 5 (Some "approved"%string) None db_vendor_approved
  = (Failure 404, db_vendor_approved).
Proof.
  destruct (putApprovalRequest_refusals db_vendor_approved 1 None) as [H400 _].
  destruct (putApprovalRequest_refusals db_vendor_approved 5 None) as [_ H404].
  split_and!.
  - apply H400; discriminate.
  - apply H400; discriminate.
  - apply H404; [by left | reflexivity].
Defined.

(** X8. A request that [createApprovalRequest] has just stored is among
    [getPendingApprovalRequests]; after a decision on a stored request the
    request is no longer among them, and the other requests are listed as
    before. *)
Theorem pending_requests_after_decision (db : Db) :
  (∀ ins, let r := createApprovalRequest ins db in
          (getPendingApprovalRequests r.2).1 !! r.1.1 = Some r.1.2) ∧
  (∀ id req target notes,
     rows (approvalRequests db) !! id = Some req →
     target = "approved"%string ∨ target = "rejected"%string →
     let db' := (putApprovalRequest id (Some target) notes db).2 in
     (getPendingApprovalRequests db').1 !! id = None ∧
     ∀ k, k ≠ id → (getPendingApprovalRequests db').1 !! k
                   = (getPendingApprovalRequests db).1 !! k).
Proof.
  split.
  - intros ins. cbv zeta. unfold createApprovalRequest, insert_returning,
      getPendingApprovalRequests, select_where. simpl.
    apply map_lookup_filter_Some. split; [by rewrite lookup_insert_eq | done].
  - intros id req target notes Hid Htarget db'. subst db'.
    rewrite (putApprovalRequest_found _ _ _ req) by done. cbn [snd].
    unfold getPendingApprovalRequests, select_where. cbn [fst tbl_get ApprovalRequests].
    rewrite (updateApprovalRequest_requests _ _ req) by done. cbn [rows]. split.
    + apply map_lookup_filter_None. right. intros q Hq.
      rewrite lookup_insert_eq in Hq. simplify_eq/=.
      destruct Htarget as [-> | ->]; done.
    + intros k Hk. apply option_eq. intros q.
      rewrite !map_lookup_filter_Some. by rewrite lookup_insert_ne.
Qed.

Lemma pending_requests_after_decision_witness :
  (getPendingApprovalRequests db_vendor_pending).1 !! 1
  = Some (mkApprovalRequest "vendor" 1 1 "pending"
            (Some "New vendor Acme added by Admin"%string)) ∧
  (getPendingApprovalRequests
     (putApprovalRequest 1 (Some "rejected"%string) None db_vendor_pending).2).1
    !! 1 = None.
Proof.
  split; [reflexivity|].
  apply (proj2 (pending_requests_after_decision db_vendor_pending) 1
           (mkApprovalRequest "vendor" 1 1 "pending"
              (Some "New vendor Acme added by Admin"%string))
           "rejected" None eq_refl (or_intror eq_refl)).
Defined.

Lemma merge_request_decision_idemp target notes r :
  merge_request (decision target notes) (merge_request (decision target notes) r)
  = merge_request (decision target notes) r.
Proof. unfold merge_request, decision. simpl. by destruct notes. Qed.

Lemma alter_set_isApproved_idemp (m : gmap Z Partner) k :
  alter (set_isApproved true) k (alter (set_isApproved true) k m)
  = alter (set_isApproved true) k m.
Proof.
  apply map_eq. intros j. destruct (decide (k = j)) as [<-|Hne].
  - rewrite !lookup_alter_eq. by destruct (m !! k).
  - by rewrite !lookup_alter_ne.
Qed.

Lemma approve_in_idemp T k db :
  (∀ t d, tbl_get T (tbl_set T t d) = t) →
  (∀ t t' d, tbl_set T t (tbl_set T t' d) = tbl_set T t d) →
  approve_in T k (approve_in T k db) = approve_in T k db.
Proof.
  intros Hget Hset. unfold approve_in. rewrite Hget, Hset. simpl.
  by rewrite alter_set_isApproved_idemp.
Qed.

Lemma approve_entity_idemp req db :
  approve_entity req (approve_entity req db) = approve_entity req db.
Proof.
  unfold approve_entity.
  repeat match goal with
         | |- context [String.eqb ?a ?b] => destruct (String.eqb a b)
         end; try done; by apply approve_in_idemp.
Qed.

Lemma with_request_approve_entity id req req' db :
  with_request id req (approve_entity req' db)
  = approve_entity req' (with_request id req db).
Proof.
  unfold approve_entity.
  repeat match goal with
         | |- context [String.eqb ?a ?b] => destruct (String.eqb a b)
         end; done.
Qed.

Lemma with_request_idemp id req db :
  with_request id req (with_request id req db) = with_request id req db.
Proof.
  unfold with_request, set_approvalRequests. simpl. by rewrite insert_insert_eq.
Qed.

(** The store [updateApprovalRequest] leaves when it found the row. *)
Lemma updateApprovalRequest_store id u r db :
  rows (approvalRequests db) !! id = Some r →
  (updateApprovalRequest id u db).2
  = if is_string (au_status u) "approved"
    then approve_entity (merge_request u r) (with_request id (merge_request u r) db)
    else with_request id (merge_request u r) db.
Proof. intros Hid. by rewrite (updateApprovalRequest_Some _ _ r). Qed.

(** X9. Repeating a decision is idempotent: a second
    [PUT /approval-requests/:id] with the same status and notes answers
    200 with the same request and leaves the store exactly as the first
    one left it, for every entity type. *)
Theorem repeated_decision_is_idempotent
    (db : Db) (id : Z) (r : ApprovalRequest) (target : string)
    (notes : option (option string)) :
  rows (approvalRequests db) !! id = Some r →
  target = "approved"%string ∨ target = "rejected"%string →
  let first := putApprovalRequest id (Some target) notes db in
  putApprovalRequest id (Some target) notes first.2 = first.
Proof.
  intros Hid Htarget first. subst first.
  assert (Hid1 : rows (approvalRequests
                   (putApprovalRequest id (Some target) notes db).2) !! id
                 = Some (merge_request (decision target notes) r)).
  { rewrite (putApprovalRequest_found _ _ _ r) by done. cbn [snd].
    by rewrite (updateApprovalRequest_row _ _ r). }
  rewrite (putApprovalRequest_found id target notes
             (merge_request (decision target notes) r)
             (putApprovalRequest id (Some target) notes db).2) by done.
  rewrite (updateApprovalRequest_store _ _ (merge_request (decision target notes) r))
    by done.
  rewrite !merge_request_decision_idemp.
  rewrite (putApprovalRequest_found _ _ _ r) by done. cbn [snd].
  rewrite (updateApprovalRequest_store _ _ r) by done. f_equal.
  destruct (is_string (au_status (decision target notes)) "approved").
  - by rewrite with_request_approve_entity, with_request_idemp,
      approve_entity_idemp.
  - apply with_request_idemp.
Qed.

Lemma repeated_decision_is_idempotent_witness :
  putApprovalRequest 1 (Some "approved"%string) None db_vendor_approved
  = putApprovalRequest 1 (Some "approved"%string) None db_vendor_pending.
Proof.
  apply (repeated_decision_is_idempotent db_vendor_pending 1
           (mkApprovalRequest "vendor" 1 1 "pending"
              (Some "New vendor Acme added by Admin"%string))
           "approved" None eq_refl (or_introl eq_refl)).
Defined.

(** ** Default template chosen by an update *)

(** X10. [updateInvoiceTemplate] with [isDefault: true] on a stored
    template returns it with the flag set and makes it the one and only
    default, which [getDefaultInvoiceTemplate] then returns; every other
    row keeps its name and body and has the flag cleared. *)
Theorem update_makes_template_the_default
    (db : Db) (id : Z) (t : InvoiceTemplate) (u : InvoiceTemplateUpdate) :
  rows (invoiceTemplates db) !! id = Some t →
  upd_isDefault u = Some true →
  let r := updateInvoiceTemplate id u db in
  let t' := mkInvoiceTemplate (default (name t) (upd_name u))
                              (default (template t) (upd_template u)) true in
  r.1 = Some t' ∧
  (∀ k, default_at (rows (invoiceTemplates r.2)) k ↔ k = id) ∧
  (getDefaultInvoiceTemplate r.2).1 = Some (id, t') ∧
  (∀ k, k ≠ id → rows (invoiceTemplates r.2) !! k
                 = set_isDefault false <$> rows (invoiceTemplates db) !! k).
Proof.
  intros Hid Hu r t'. subst r.
  destruct (updateInvoiceTemplate_eq id u db) as (Hres & Hrows & _).
  cbv zeta in Hres, Hrows. rewrite Hu in Hres, Hrows. simpl in Hres, Hrows.
  assert (Hc : clear_defaults (rows (invoiceTemplates db)) !! id
               = Some (set_isDefault false t)).
  { rewrite clear_defaults_fmap, lookup_fmap, Hid. done. }
  rewrite Hc in Hres, Hrows. simpl in Hres.
  assert (Ht' : merge_template u (set_isDefault false t) = t').
  { unfold merge_template, t'. simpl. by rewrite Hu. }
  rewrite Ht' in Hres, Hrows.
  assert (Honly : ∀ k, default_at
             (rows (invoiceTemplates (updateInvoiceTemplate id u db).2)) k
             ↔ k = id).
  { intros k. rewrite Hrows. split.
    - intros (q & Hk & Hq). destruct (decide (id = k)) as [|Hne]; [done|].
      rewrite lookup_insert_ne in Hk by done.
      destruct (clear_defaults_no_default (rows (invoiceTemplates db)) k).
      by exists q.
    - intros ->. exists t'. by rewrite lookup_insert_eq. }
  split_and!.
  - done.
  - done.
  - unfold getDefaultInvoiceTemplate, select_where. task_simpl.
    apply first_default_unique; [|done]. rewrite Hrows. by rewrite lookup_insert_eq.
  - intros k Hk. rewrite Hrows, lookup_insert_ne by done.
    by rewrite clear_defaults_fmap, lookup_fmap.
Qed.

Lemma update_makes_template_the_default_witness :
  let db2 := (createInvoiceTemplate template_B db_template_A).2 in
  let r := updateInvoiceTemplate 1
             (mkInvoiceTemplateUpdate (Some "A2"%string) None (Some true)) db2 in
  (getDefaultInvoiceTemplate db2).1 = Some (2, mkInvoiceTemplate "B" "<b/>" true) ∧
  (getDefaultInvoiceTemplate r.2).1 = Some (1, mkInvoiceTemplate "A2" "<a/>" true) ∧
  rows (invoiceTemplates r.2) !! 2 = Some (mkInvoiceTemplate "B" "<b/>" false).
Proof.
  destruct (update_makes_template_the_default
              (createInvoiceTemplate template_B db_template_A).2 1
              (mkInvoiceTemplate "A" "<a/>" false)
              (mkInvoiceTemplateUpdate (Some "A2"%string) None (Some true))
              eq_refl eq_refl) as (_ & _ & H3 & H4).
  split_and!; [by vm_compute | exact H3 | by rewrite H4].
Defined.

(** ** From registration to approval *)

Lemma truthy_nonzero uid : uid ≠ 0 → truthy (Some uid) = true.
Proof. intros Hne. simpl. by destruct (Z.eqb_spec uid 0). Qed.

Lemma postVendors_eq uid fullName name db :
  uid ≠ 0 →
  postVendors (Some (uid, fullName)) name db
  = (Json 201 (id_seq (vendors db), mkPartner name false true),
     with_new_request "vendor" (id_seq (vendors db)) uid
       ("New vendor " +:+ name +:+ " added by " +:+ fullName)
       (set_vendors (mkTable (<[id_seq (vendors db) := mkPartner name false true]>
                                (rows (vendors db)))
                             (id_seq (vendors db) + 1)) db)).
Proof.
  intros Hne. unfold postVendors. unfold mbind, Task_bind, mret, Task_ret.
  cbv beta zeta. rewrite (truthy_nonzero _ Hne). done.
Qed.

Lemma postSuppliers_eq uid fullName name db :
  uid ≠ 0 →
  postSuppliers (Some (uid, fullName)) name db
  = (Json 201 (id_seq (suppliers db), mkPartner name false true),
     with_new_request "supplier" (id_seq (suppliers db)) uid
       ("New supplier " +:+ name +:+ " added by " +:+ fullName)
       (set_suppliers
          (mkTable (<[id_seq (suppliers db) := mkPartner name false true]>
                      (rows (suppliers db)))
                   (id_seq (suppliers db) + 1)) db)).
Proof.
  intros Hne. unfold postSuppliers. unfold mbind, Task_bind, mret, Task_ret.
  cbv beta zeta. rewrite (truthy_nonzero _ Hne). done.
Qed.

Lemma postDistributors_eq uid fullName name db :
  uid ≠ 0 →
  postDistributors (Some (uid, fullName)) name db
  = (Json 201 (id_seq (distributors db), mkPartner name false true),
     with_new_request "distributor" (id_seq (distributors db)) uid
       ("New distributor " +:+ name +:+ " added by " +:+ fullName)
       (set_distributors
          (mkTable (<[id_seq (distributors db) := mkPartner name false true]>
                      (rows (distributors db)))
                   (id_seq (distributors db) + 1)) db)).
Proof.
  intros Hne. unfold postDistributors. unfold mbind, Task_bind, mret, Task_ret.
  cbv beta zeta. rewrite (truthy_nonzero _ Hne). done.
Qed.

Lemma postRetailers_eq uid fullName name db :
  uid ≠ 0 →
  postRetailers (Some (uid, fullName)) name db
  = (Json 201 (id_seq (retailers db), mkPartner name false true),
     with_new_request "retailer" (id_seq (retailers db)) uid
       ("New retailer " +:+ name +:+ " added by " +:+ fullName)
       (set_retailers
          (mkTable (<[id_seq (retailers db) := mkPartner name false true]>
                      (rows (retailers db)))
                   (id_seq (retailers db) + 1)) db)).
Proof.
  intros Hne. unfold postRetailers. unfold mbind, Task_bind, mret, Task_ret.
  cbv beta zeta. rewrite (truthy_nonzero _ Hne). done.
Qed.

Lemma postBilledEntities_eq uid fullName name db :
  uid ≠ 0 →
  postBilledEntities (Some (uid, fullName)) name db
  = (Json 201 (id_seq (billedEntities db), mkPartner name false true),
     with_new_request "billedEntity" (id_seq (billedEntities db)) uid
       ("New billed entity " +:+ name +:+ " added by " +:+ fullName)
       (set_billedEntities
          (mkTable (<[id_seq (billedEntities db) := mkPartner name false true]>
                      (rows (billedEntities db)))
                   (id_seq (billedEntities db) + 1)) db)).
Proof.
  intros Hne. unfold postBilledEntities. unfold mbind, Task_bind, mret, Task_ret.
  cbv beta zeta. rewrite (truthy_nonzero _ Hne). done.
Qed.

(** The steps shared by the four kinds, once the route is rewritten with
    its equation. *)
Ltac onboards_tac :=
  cbn [fst snd]; split_and!;
  [ done
  | unfold getPendingApprovalRequests, select_where, with_new_request; simpl;
    apply map_lookup_filter_Some; split; [by rewrite lookup_insert_eq | done]
  | unfold select_where, with_new_request; simpl;
    apply map_lookup_filter_None; right; intros q Hq;
    simpl in *; rewrite lookup_insert_eq in Hq; by simplify_eq/=
  | erewrite approved_store
      by (unfold with_new_request; simpl; by rewrite lookup_insert_eq);
    cbv zeta; unfold select_where, with_new_request, approve_in, with_request;
    simpl; apply map_lookup_filter_Some;
    split; [by rewrite lookup_alter_eq, lookup_insert_eq | done]
  | erewrite rejected_store
      by (unfold with_new_request; simpl; by rewrite lookup_insert_eq);
    unfold select_where, with_new_request, with_request; simpl;
    apply map_lookup_filter_None; right; intros q Hq;
    simpl in *; rewrite lookup_insert_eq in Hq; by simplify_eq/= ].

(** X11. For each of the four approvable kinds, the registration route
    stores the entity unapproved and opens a pending request that names
    it; the entity is not in the approved selection until that request is
    decided as approved, is in it afterwards, and stays out of it when the
    request is decided as rejected. *)
Theorem registration_then_decision
    (db : Db) (uid : Z) (fullName name : string)
    (notes : option (option string)) :
  uid ≠ 0 →
  onboards postVendors vendors getApprovedVendors
    "vendor" "New vendor " db uid fullName name notes ∧
  onboards postDistributors distributors getApprovedDistributors
    "distributor" "New distributor " db uid fullName name notes ∧
  onboards postRetailers retailers getApprovedRetailers
    "retailer" "New retailer " db uid fullName name notes ∧
  onboards postBilledEntities billedEntities getApprovedBilledEntities
    "billedEntity" "New billed entity " db uid fullName name notes.
Proof.
  intros Hne. unfold onboards. cbv zeta. split; [|split; [|split]].
  - rewrite !postVendors_eq by done. unfold getApprovedVendors. onboards_tac.
  - rewrite !postDistributors_eq by done. unfold getApprovedDistributors.
    onboards_tac.
  - rewrite !postRetailers_eq by done. unfold getApprovedRetailers. onboards_tac.
  - rewrite !postBilledEntities_eq by done. unfold getApprovedBilledEntities.
    onboards_tac.
Qed.

Lemma registration_then_decision_witness :
  onboards postRetailers retailers getApprovedRetailers
    "retailer" "New retailer " db_vendor_pending 3 "Admin" "Corner shop" None.
Proof.
  apply (registration_then_decision db_vendor_pending 3 "Admin" "Corner shop" None).
  discriminate.
Defined.

(** ** What every sequence of storage calls keeps *)

Lemma wf_table_update {A} (t : Table A) id r r' :
  rows t !! id = Some r →
  wf_table t → wf_table (mkTable (<[id := r']> (rows t)) (id_seq t)).
Proof.
  intros Hid [H1 Hwf]. split; simpl; [done|]. intros k y Hk.
  destruct (decide (id = k)) as [<-|Hne]; [by apply (Hwf _ _ Hid)|].
  rewrite lookup_insert_ne in Hk by done. by apply (Hwf _ _ Hk).
Qed.

Lemma wf_table_fmap {A} (t : Table A) (f : A → A) :
  wf_table t → wf_table (mkTable (f <$> rows t) (id_seq t)).
Proof.
  intros [H1 Hwf]. split; simpl; [done|]. intros k y Hk.
  rewrite lookup_fmap in Hk. destruct (rows t !! k) as [x|] eqn:Hx; [|done].
  by apply (Hwf _ _ Hx).
Qed.

Lemma wf_table_alter {A} (t : Table A) (f : A → A) k :
  wf_table t → wf_table (mkTable (alter f k (rows t)) (id_seq t)).
Proof.
  intros [H1 Hwf]. split; simpl; [done|]. intros j y Hj.
  destruct (decide (k = j)) as [<-|Hne].
  - rewrite lookup_alter_eq in Hj. destruct (rows t !! k) as [x|] eqn:Hx; [|done].
    by apply (Hwf _ _ Hx).
  - rewrite lookup_alter_ne in Hj by done. by apply (Hwf _ _ Hj).
Qed.

Lemma wf_table_eta {A} (t : Table A) :
  wf_table t → wf_table (mkTable (rows t) (id_seq t)).
Proof. by destruct t. Qed.

Lemma partner_kept_refl t : partner_kept t t.
Proof. intros k e Hk. by exists e. Qed.

Lemma partner_kept_trans t1 t2 t3 :
  partner_kept t1 t2 → partner_kept t2 t3 → partner_kept t1 t3.
Proof.
  intros H12 H23 k e Hk. destruct (H12 _ _ Hk) as (e2 & Hk2 & Ha & Hi).
  destruct (H23 _ _ Hk2) as (e3 & Hk3 & Ha' & Hi'). exists e3. auto.
Qed.

Lemma partner_kept_insert t e :
  wf_table t →
  partner_kept t (mkTable (<[id_seq t := e]> (rows t)) (id_seq t + 1)).
Proof.
  intros Hwf k x Hk. exists x. split; [|done]. simpl.
  rewrite lookup_insert_ne; [done|]. intros <-.
  by rewrite (wf_table_fresh t Hwf) in Hk.
Qed.

Lemma partner_kept_update t id r r' :
  rows t !! id = Some r →
  (isApproved r = true → isApproved r' = true) →
  (isActive r = false → isActive r' = false) →
  partner_kept t (mkTable (<[id := r']> (rows t)) (id_seq t)).
Proof.
  intros Hid Ha Hi k x Hk. simpl. destruct (decide (id = k)) as [<-|Hne].
  - exists r'. rewrite lookup_insert_eq. by simplify_eq.
  - exists x. by rewrite lookup_insert_ne.
Qed.

Lemma partner_kept_approve t k :
  partner_kept t (mkTable (alter (set_isApproved true) k (rows t)) (id_seq t)).
Proof.
  intros j x Hj. simpl. destruct (decide (k = j)) as [<-|Hne].
  - exists (set_isApproved true x). by rewrite lookup_alter_eq, Hj.
  - exists x. by rewrite lookup_alter_ne.
Qed.

Lemma product_kept_refl t : product_kept t t.
Proof. intros k p Hk. by exists p. Qed.

Lemma product_kept_trans t1 t2 t3 :
  product_kept t1 t2 → product_kept t2 t3 → product_kept t1 t3.
Proof.
  intros H12 H23 k p Hk. destruct (H12 _ _ Hk) as (p2 & Hk2 & Hi).
  destruct (H23 _ _ Hk2) as (p3 & Hk3 & Hi'). exists p3. auto.
Qed.

Lemma product_kept_insert t p :
  wf_table t →
  product_kept t (mkTable (<[id_seq t := p]> (rows t)) (id_seq t + 1)).
Proof.
  intros Hwf k x Hk. exists x. split; [|done]. simpl.
  rewrite lookup_insert_ne; [done|]. intros <-.
  by rewrite (wf_table_fresh t Hwf) in Hk.
Qed.

Lemma product_kept_update t id r r' :
  rows t !! id = Some r →
  (product_isActive r = false → product_isActive r' = false) →
  product_kept t (mkTable (<[id := r']> (rows t)) (id_seq t)).
Proof.
  intros Hid Hi k x Hk. simpl. destruct (decide (id = k)) as [<-|Hne].
  - exists r'. rewrite lookup_insert_eq. by simplify_eq.
  - exists x. by rewrite lookup_insert_ne.
Qed.

Lemma product_kept_bump f t :
  product_kept t (mkTable (bump f (rows t)) (id_seq t)).
Proof.
  intros k p Hk. simpl. rewrite lookup_bump, Hk. simpl. by eexists.
Qed.

Lemma rows_kept_refl {A} (t : Table A) : rows_kept t t.
Proof. by intros k Hk. Qed.

Lemma rows_kept_trans {A} (t1 t2 t3 : Table A) :
  rows_kept t1 t2 → rows_kept t2 t3 → rows_kept t1 t3.
Proof. intros H12 H23 k Hk. by apply H23, H12. Qed.

Lemma rows_kept_insert {A} (t : Table A) n' k x :
  rows_kept t (mkTable (<[k := x]> (rows t)) n').
Proof.
  intros j Hj. simpl in *. destruct (decide (k = j)) as [<-|Hne].
  - by rewrite lookup_insert_eq.
  - by rewrite lookup_insert_ne.
Qed.

Lemma rows_kept_fmap {A} (t : Table A) (f : A → A) n' :
  rows_kept t (mkTable (f <$> rows t) n').
Proof. intros j Hj. simpl in *. rewrite lookup_fmap. by apply fmap_is_Some. Qed.

Lemma evolves_refl db : evolves db db.
Proof.
  split; first [apply product_kept_refl | apply partner_kept_refl
               | apply rows_kept_refl].
Qed.

Lemma evolves_trans db1 db2 db3 :
  evolves db1 db2 → evolves db2 db3 → evolves db1 db3.
Proof.
  intros [] []. split;
    first [by eapply product_kept_trans | by eapply partner_kept_trans
          | by eapply rows_kept_trans].
Qed.

Lemma wf_table_insert_fmap {A} (t : Table A) (f : A → A) r :
  wf_table t →
  wf_table (mkTable (<[id_seq t := r]> (f <$> rows t)) (id_seq t + 1)).
Proof.
  intros Hwf.
  exact (wf_table_insert (mkTable (f <$> rows t) (id_seq t)) r
           (wf_table_fmap t f Hwf)).
Qed.

Lemma wf_table_update_fmap {A} (t : Table A) (f : A → A) id r r' :
  (f <$> rows t) !! id = Some r →
  wf_table t →
  wf_table (mkTable (<[id := r']> (f <$> rows t)) (id_seq t)).
Proof.
  intros Hid Hwf.
  exact (wf_table_update (mkTable (f <$> rows t) (id_seq t)) id r r' Hid
           (wf_table_fmap t f Hwf)).
Qed.

Lemma rows_kept_insert_fmap {A} (t : Table A) (f : A → A) n' k x :
  rows_kept t (mkTable (<[k := x]> (f <$> rows t)) n').
Proof.
  eapply rows_kept_trans; [apply (rows_kept_fmap t f n')|].
  exact (rows_kept_insert (mkTable (f <$> rows t) n') n' k x).
Qed.

Ltac wf_tac :=
  unfold wf_Db; simpl; split_and!;
  first [ done
        | by apply wf_table_insert
        | by eapply wf_table_update
        | by apply wf_table_delete
        | by apply wf_table_bump
        | by apply wf_table_alter
        | by apply wf_table_fmap
        | by apply wf_table_insert_fmap
        | by eapply wf_table_update_fmap ].

Ltac kept_tac :=
  split; simpl;
  first [ apply product_kept_refl
        | apply partner_kept_refl
        | apply rows_kept_refl
        | by apply product_kept_insert
        | by apply partner_kept_insert
        | apply rows_kept_insert
        | apply rows_kept_fmap
        | apply rows_kept_insert_fmap
        | apply product_kept_bump
        | apply partner_kept_approve
        | by eapply product_kept_update
        | by eapply partner_kept_update ].

Lemma storage_step_keeps op db :
  wf_Db db →
  wf_Db (storage_step op db).2 ∧ evolves db (storage_step op db).2.
Proof.
  intros Hwf.
  pose proof Hwf as (Hpr & Hsu & Hve & Hdi & Hre & Hbe & Hpu & Hsa & Hit & Har).
  destruct op; unfold storage_step, mbind, Task_bind, mret, Task_ret;
    cbv beta zeta; cbn [fst snd].
  - unfold createProduct, insert_returning. split; [wf_tac | kept_tac].
  - unfold updateProduct, update_by_id. simpl.
    destruct (rows (products db) !! id) as [r|] eqn:Hid; simpl;
      (split; [wf_tac | kept_tac]).
  - unfold deleteProduct, update_by_id, mbind, Task_bind, mret, Task_ret. simpl.
    destruct (rows (products db) !! id) as [r|] eqn:Hid; simpl;
      (split; [wf_tac | kept_tac]).
  - unfold updateProductStock, update_by_id. simpl.
    destruct (rows (products db) !! id) as [r|] eqn:Hid; simpl;
      (split; [wf_tac | kept_tac]).
  - unfold createSupplier, insert_returning. split; [wf_tac | kept_tac].
  - unfold updateSupplier, update_by_id. simpl.
    destruct (rows (suppliers db) !! id) as [r|] eqn:Hid; simpl;
      (split; [wf_tac | kept_tac]).
  - unfold deleteSupplier, update_by_id, mbind, Task_bind, mret, Task_ret. simpl.
    destruct (rows (suppliers db) !! id) as [r|] eqn:Hid; simpl;
      (split; [wf_tac | kept_tac]).
  - unfold createVendor, insert_returning. split; [wf_tac | kept_tac].
  - unfold updateVendor, update_by_id. simpl.
    destruct (rows (vendors db) !! id) as [r|] eqn:Hid; simpl;
      (split; [wf_tac | kept_tac]).
  - unfold createDistributor, insert_returning. split; [wf_tac | kept_tac].
  - unfold updateDistributor, update_by_id. simpl.
    destruct (rows (distributors db) !! id) as [r|] eqn:Hid; simpl;
      (split; [wf_tac | kept_tac]).
  - unfold createRetailer, insert_returning. split; [wf_tac | kept_tac].
  - unfold updateRetailer, update_by_id. simpl.
    destruct (rows (retailers db) !! id) as [r|] eqn:Hid; simpl;
      (split; [wf_tac | kept_tac]).
  - unfold createBilledEntity, insert_returning. split; [wf_tac | kept_tac].
  - unfold updateBilledEntity, update_by_id. simpl.
    destruct (rows (billedEntities db) !! id) as [r|] eqn:Hid; simpl;
      (split; [wf_tac | kept_tac]).
  - rewrite createPurchase_eq. cbn [snd]. unfold bump_products.
    split; [wf_tac | kept_tac].
  - unfold updatePurchase, update_by_id. simpl.
    destruct (rows (purchases db) !! id) as [r|] eqn:Hid; simpl;
      (split; [wf_tac | kept_tac]).
  - destruct (rows (purchases db) !! id) as [p|] eqn:Hid.
    + rewrite (deletePurchase_Some _ p) by done. cbn [snd]. unfold bump_products.
      split; [wf_tac | kept_tac].
    + rewrite deletePurchase_None by done. split; [done | apply evolves_refl].
  - rewrite createSale_eq. cbn [snd]. unfold bump_products.
    split; [wf_tac | kept_tac].
  - unfold updateSale, update_by_id. simpl.
    destruct (rows (sales db) !! id) as [r|] eqn:Hid; simpl;
      (split; [wf_tac | kept_tac]).
  - destruct (rows (sales db) !! id) as [s|] eqn:Hid.
    + rewrite (deleteSale_Some _ s) by done. cbn [snd]. unfold bump_products.
      split; [wf_tac | kept_tac].
    + rewrite deleteSale_None by done. split; [done | apply evolves_refl].
  - rewrite createInvoiceTemplate_eq. cbv zeta. cbn [snd]. unfold clear_defaults.
    destruct (truthy_flag (it_isDefault insertTemplate));
      (split; [wf_tac | kept_tac]).
  - unfold updateInvoiceTemplate. cbv zeta.
    destruct (truthy_flag (upd_isDefault templateUpdate));
      unfold update_where, update_by_id, mbind, Task_bind, mret, Task_ret; simpl;
      match goal with
      | |- context [match ?m !! id with _ => _ end] =>
          destruct (m !! id) as [r|] eqn:Hid
      end; simpl; (split; [wf_tac | kept_tac]).
  - unfold createApprovalRequest, insert_returning. split; [wf_tac | kept_tac].
  - destruct (rows (approvalRequests db) !! id) as [r|] eqn:Hid.
    + rewrite (updateApprovalRequest_store _ _ r) by done.
      destruct (is_string (au_status requestUpdate) "approved");
        unfold approve_entity;
        repeat match goal with
               | |- context [String.eqb ?a ?b] => destruct (String.eqb a b)
               end;
        unfold approve_in, with_request;
        (split; [wf_tac | kept_tac]).
    + rewrite updateApprovalRequest_None by done.
      split; [done | apply evolves_refl].
Qed.

Lemma storage_run_cons op ops db :
  storage_run (op :: ops) db = storage_run ops (storage_step op db).2.
Proof. done. Qed.

Lemma storage_run_keeps ops db :
  wf_Db db →
  wf_Db (storage_run ops db).2 ∧ evolves db (storage_run ops db).2.
Proof.
  revert db. induction ops as [|op ops IH]; intros db Hwf.
  - split; [done | apply evolves_refl].
  - rewrite storage_run_cons.
    destruct (storage_step_keeps op db Hwf) as [Hwf1 Hev1].
    destruct (IH _ Hwf1) as [Hwf2 Hev2].
    split; [done | by eapply evolves_trans].
Qed.

Lemma partner_kept_approved t t' k :
  partner_kept t t' → approved_in t k → approved_in t' k.
Proof.
  intros Hkept (e & Hk & Ha). destruct (Hkept _ _ Hk) as (e' & Hk' & Ha' & _).
  exists e'. auto.
Qed.

(** X12. No sequence of storage calls starting in a well-formed store
    revokes an approval: a vendor, distributor, retailer or billed entity
    whose [isApproved] is set keeps its row with the flag set, whatever
    is created, updated, deleted or decided afterwards (a later rejection
    included). *)
Theorem approval_is_never_revoked (db : Db) (ops : list StorageOp) (k : Z) :
  wf_Db db →
  let db' := (storage_run ops db).2 in
  (approved_in (vendors db) k → approved_in (vendors db') k) ∧
  (approved_in (distributors db) k → approved_in (distributors db') k) ∧
  (approved_in (retailers db) k → approved_in (retailers db') k) ∧
  (approved_in (billedEntities db) k → approved_in (billedEntities db') k).
Proof.
  intros Hwf db'. subst db'.
  destruct (storage_run_keeps ops db Hwf)
    as [_ [Hpro Hsup Hven Hdis Hret Hbil Htem]].
  split_and!; by apply partner_kept_approved.
Qed.

Lemma approval_is_never_revoked_witness :
  approved_in (vendors (storage_run ops_after_approval db_vendor_approved).2) 1.
Proof.
  assert (Hwf : wf_Db db_vendor_approved)
    by (apply (bool_decide_unpack _); by vm_compute).
  apply (proj1 (approval_is_never_revoked db_vendor_approved
                  ops_after_approval 1 Hwf)).
  eexists. split; reflexivity.
Defined.

(** X13. No sequence of storage calls starting in a well-formed store
    removes a product, a supplier, a vendor, a distributor, a retailer, a
    billed entity or an invoice template: the row stays under its key
    (only purchases and sales are deleted for good).  And a product or
    supplier that was soft-deleted stays out of [getAllProducts] and
    [getAllSuppliers] for ever: no method sets [isActive] again.
    Approval requests are not among these tables: [updateApprovalRequest]
    writes whatever keys of the row type its argument carries. *)
Theorem soft_deletion_is_permanent (db : Db) (ops : list StorageOp) (k : Z) :
  wf_Db db →
  let db' := (storage_run ops db).2 in
  (is_Some (rows (products db) !! k) → is_Some (rows (products db') !! k)) ∧
  (is_Some (rows (suppliers db) !! k) → is_Some (rows (suppliers db') !! k)) ∧
  (is_Some (rows (vendors db) !! k) → is_Some (rows (vendors db') !! k)) ∧
  (is_Some (rows (distributors db) !! k) →
   is_Some (rows (distributors db') !! k)) ∧
  (is_Some (rows (retailers db) !! k) → is_Some (rows (retailers db') !! k)) ∧
  (is_Some (rows (billedEntities db) !! k) →
   is_Some (rows (billedEntities db') !! k)) ∧
  (is_Some (rows (invoiceTemplates db) !! k) →
   is_Some (rows (invoiceTemplates db') !! k)) ∧
  (∀ p, rows (products db) !! k = Some p → product_isActive p = false →
        (getAllProducts db').1 !! k = None) ∧
  (∀ e, rows (suppliers db) !! k = Some e → isActive e = false →
        (getAllSuppliers db').1 !! k = None).
Proof.
  intros Hwf db'. subst db'.
  destruct (storage_run_keeps ops db Hwf)
    as [_ [Hpro Hsup Hven Hdis Hret Hbil Htem]].
  assert (Hpart : ∀ t t', partner_kept t t' →
            is_Some (rows t !! k) → is_Some (rows t' !! k)).
  { intros t t' Hkept [e He]. destruct (Hkept _ _ He) as (e' & -> & _). done. }
  split_and!.
  - intros [p Hp]. destruct (Hpro _ _ Hp) as (p' & -> & _). done.
  - by apply Hpart.
  - by apply Hpart.
  - by apply Hpart.
  - by apply Hpart.
  - by apply Hpart.
  - apply Htem.
  - intros p Hp Hact. destruct (Hpro _ _ Hp) as (p' & Hp' & Hact').
    unfold getAllProducts, select_where. cbn [fst tbl_get Products].
    apply map_lookup_filter_None. right. intros q Hq. cbn [snd].
    rewrite Hp' in Hq. simplify_eq. rewrite Hact' by done. done.
  - intros e He Hact. destruct (Hsup _ _ He) as (e' & He' & _ & Hact').
    unfold getAllSuppliers, select_where. cbn [fst tbl_get Suppliers].
    apply map_lookup_filter_None. right. intros q Hq. cbn [snd].
    rewrite He' in Hq. simplify_eq. rewrite Hact' by done. done.
Qed.

Lemma soft_deletion_is_permanent_witness :
  let db' := (storage_run ops_on_deleted_product db_X1_traded).2 in
  is_Some (rows (products db') !! 1) ∧
  (getAllProducts (storage_run (tail ops_on_deleted_product)
                     (deleteProduct 1 db_X1_traded).2).2).1 !! 1 = None.
Proof.
  assert (Hwf : wf_Db db_X1_traded)
    by (apply (bool_decide_unpack _); by vm_compute).
  assert (Hwf' : wf_Db (deleteProduct 1 db_X1_traded).2)
    by (apply (bool_decide_unpack _); by vm_compute).
  split.
  - apply (soft_deletion_is_permanent db_X1_traded ops_on_deleted_product 1 Hwf).
    by eexists.
  - destruct (soft_deletion_is_permanent (deleteProduct 1 db_X1_traded).2
                (tail ops_on_deleted_product) 1 Hwf')
      as (_ & _ & _ & _ & _ & _ & _ & Hp & _).
    by eapply Hp.
Defined.

Ltac ns_tac :=
  let k := fresh "k" in
  let e := fresh "e" in
  let Hk := fresh "Hk" in
  intros k e Hk; simpl in Hk;
  first
    [ by eauto
    | match type of Hk with
      | <[?j := _]> _ !! _ = _ =>
          destruct (decide (j = k)) as [<-|];
          [ rewrite lookup_insert_eq in Hk; simplify_eq/=; by eauto
          | rewrite lookup_insert_ne in Hk by done; by eauto ]
      end ].

Lemma storage_step_no_supplier_approved op db :
  no_supplier_approved db → no_supplier_approved (storage_step op db).2.
Proof.
  intros Hns. unfold no_supplier_approved in Hns.
  destruct op; unfold storage_step, mbind, Task_bind, mret, Task_ret;
    cbv beta zeta; cbn [fst snd].
  - unfold createProduct, insert_returning. ns_tac.
  - unfold updateProduct, update_by_id. simpl.
    destruct (rows (products db) !! id) as [r|] eqn:Hid; simpl; ns_tac.
  - unfold deleteProduct, update_by_id, mbind, Task_bind, mret, Task_ret. simpl.
    destruct (rows (products db) !! id) as [r|] eqn:Hid; simpl; ns_tac.
  - unfold updateProductStock, update_by_id. simpl.
    destruct (rows (products db) !! id) as [r|] eqn:Hid; simpl; ns_tac.
  - unfold createSupplier, insert_returning. ns_tac.
  - unfold updateSupplier, update_by_id. simpl.
    destruct (rows (suppliers db) !! id) as [r|] eqn:Hid; simpl; ns_tac.
  - unfold deleteSupplier, update_by_id, mbind, Task_bind, mret, Task_ret. simpl.
    destruct (rows (suppliers db) !! id) as [r|] eqn:Hid; simpl; ns_tac.
  - unfold createVendor, insert_returning. ns_tac.
  - unfold updateVendor, update_by_id. simpl.
    destruct (rows (vendors db) !! id) as [r|] eqn:Hid; simpl; ns_tac.
  - unfold createDistributor, insert_returning. ns_tac.
  - unfold updateDistributor, update_by_id. simpl.
    destruct (rows (distributors db) !! id) as [r|] eqn:Hid; simpl; ns_tac.
  - unfold createRetailer, insert_returning. ns_tac.
  - unfold updateRetailer, update_by_id. simpl.
    destruct (rows (retailers db) !! id) as [r|] eqn:Hid; simpl; ns_tac.
  - unfold createBilledEntity, insert_returning. ns_tac.
  - unfold updateBilledEntity, update_by_id. simpl.
    destruct (rows (billedEntities db) !! id) as [r|] eqn:Hid; simpl; ns_tac.
  - rewrite createPurchase_eq. cbn [snd]. unfold bump_products. ns_tac.
  - unfold updatePurchase, update_by_id. simpl.
    destruct (rows (purchases db) !! id) as [r|] eqn:Hid; simpl; ns_tac.
  - destruct (rows (purchases db) !! id) as [p|] eqn:Hid.
    + rewrite (deletePurchase_Some _ p) by done. cbn [snd]. unfold bump_products.
      ns_tac.
    + by rewrite deletePurchase_None.
  - rewrite createSale_eq. cbn [snd]. unfold bump_products. ns_tac.
  - unfold updateSale, update_by_id. simpl.
    destruct (rows (sales db) !! id) as [r|] eqn:Hid; simpl; ns_tac.
  - destruct (rows (sales db) !! id) as [s|] eqn:Hid.
    + rewrite (deleteSale_Some _ s) by done. cbn [snd]. unfold bump_products.
      ns_tac.
    + by rewrite deleteSale_None.
  - rewrite createInvoiceTemplate_eq. cbv zeta. cbn [snd]. ns_tac.
  - unfold updateInvoiceTemplate. cbv zeta.
    destruct (truthy_flag (upd_isDefault templateUpdate));
      unfold update_where, update_by_id, mbind, Task_bind, mret, Task_ret; simpl;
      match goal with
      | |- context [match ?m !! id with _ => _ end] =>
          destruct (m !! id) as [r|] eqn:Hid
      end; simpl; ns_tac.
  - unfold createApprovalRequest, insert_returning. ns_tac.
  - destruct (rows (approvalRequests db) !! id) as [r|] eqn:Hid.
    + rewrite (updateApprovalRequest_store _ _ r) by done.
      destruct (is_string (au_status requestUpdate) "approved");
        unfold approve_entity;
        repeat match goal with
               | |- context [String.eqb ?a ?b] => destruct (String.eqb a b)
               end;
        unfold approve_in, with_request; ns_tac.
    + by rewrite updateApprovalRequest_None.
Qed.

(** X14. No supplier is ever approved: in a store without an approved
    supplier, no sequence of storage calls sets [isApproved] on a
    supplier, not even the approval of the request that [POST /suppliers]
    opened for it. *)
Theorem supplier_is_never_approved (db : Db) (ops : list StorageOp) :
  no_supplier_approved db →
  no_supplier_approved (storage_run ops db).2.
Proof.
  revert db. induction ops as [|op ops IH]; intros db Hns; [done|].
  rewrite storage_run_cons. by apply IH, storage_step_no_supplier_approved.
Qed.

Lemma supplier_is_never_approved_witness :
  no_supplier_approved (storage_run ops_on_supplier db_supplier_pending).2.
Proof.
  apply (supplier_is_never_approved db_supplier_pending ops_on_supplier).
  intros k e Hk. destruct (decide (k = 1)) as [->|Hne].
  - vm_compute in Hk. by simplify_eq.
  - unfold db_supplier_pending in Hk. rewrite postSuppliers_eq in Hk by done.
    simpl in Hk. rewrite lookup_insert_ne in Hk by done. done.
Defined.

(** ** Creating a product and finding it again *)

Lemma first_match_unique {A} (P : A → bool) (m : gmap Z A) k x :
  m !! k = Some x → P x = true →
  (∀ j y, m !! j = Some y → P y = true → j = k) →
  head (map_to_list (filter (λ kv, P kv.2 = true) m)) = Some (k, x).
Proof.
  intros Hk HP Honly.
  replace (filter _ _) with ({[k := x]} : gmap Z A);
    [by rewrite map_to_list_singleton|].
  apply map_eq. intros j. apply option_eq. intros y.
  rewrite map_lookup_filter_Some, lookup_singleton_Some. simpl. split.
  - by intros [<- <-].
  - intros [Hj Hy]. assert (j = k) as -> by by eapply Honly. by simplify_eq.
Qed.

(** X15. In a well-formed store where no product has the sku [s],
    [getProductBySku s] finds nothing; and the product [createProduct]
    stores under that sku is active and is what [getProduct] (by the
    returned key), [getProductBySku] and [getAllProducts] return
    afterwards, while the products stored before are untouched. *)
Theorem createProduct_then_lookup (db : Db) (ip : InsertProduct) :
  wf_Db db →
  (∀ k p, rows (products db) !! k = Some p → sku p ≠ ip_sku ip) →
  let r := createProduct ip db in
  (getProductBySku (ip_sku ip) db).1 = None ∧
  product_isActive r.1.2 = true ∧
  stock r.1.2 = ip_stock ip ∧
  (getProduct r.1.1 r.2).1 = Some r.1.2 ∧
  (getProductBySku (ip_sku ip) r.2).1 = Some r.1 ∧
  (getAllProducts r.2).1 !! r.1.1 = Some r.1.2 ∧
  (∀ k p, rows (products db) !! k = Some p → rows (products r.2) !! k = Some p).
Proof.
  intros Hwf Hsku r. subst r. destruct Hwf as (Hpr & _).
  unfold createProduct, insert_returning, getProductBySku, getProduct,
    getAllProducts, select_where, select_by_id. task_simpl.
  set (new := mkProduct (ip_sku ip) (ip_stock ip)
                        (default (Some 10) (ip_minStock ip)) true).
  split_and!.
  - replace (filter _ _) with (∅ : gmap Z Product);
      [by rewrite map_to_list_empty|].
    symmetry. apply map_empty_filter. intros k p Hk HP. simpl in HP.
    apply String.eqb_eq in HP. by apply (Hsku _ _ Hk).
  - done.
  - done.
  - by rewrite lookup_insert_eq.
  - apply (first_match_unique (λ p, String.eqb (sku p) (ip_sku ip))).
    + by rewrite lookup_insert_eq.
    + apply String.eqb_refl.
    + intros j y Hj Hy. destruct (decide (id_seq (products db) = j)); [done|].
      rewrite lookup_insert_ne in Hj by done. apply String.eqb_eq in Hy.
      by destruct (Hsku _ _ Hj).
  - apply map_lookup_filter_Some. by rewrite lookup_insert_eq.
  - intros k p Hk. rewrite lookup_insert_ne; [done|]. intros <-.
    by rewrite (wf_table_fresh _ Hpr) in Hk.
Qed.

Lemma createProduct_then_lookup_witness :
  let ip := mkInsertProduct "Y2" 7 None in
  let r := createProduct ip db_X1_traded in
  (getProductBySku "Y2" db_X1_traded).1 = None ∧
  (getProductBySku "Y2" r.2).1 = Some (2, mkProduct "Y2" 7 (Some 10) true).
Proof.
  assert (Hwf : wf_Db db_X1_traded)
    by (apply (bool_decide_unpack _); by vm_compute).
  assert (Hsku : ∀ k p, rows (products db_X1_traded) !! k = Some p →
                        sku p ≠ "Y2"%string).
  { intros k p Hk. destruct (decide (k = 1)) as [->|Hne].
    - vm_compute in Hk. by simplify_eq.
    - exfalso. revert Hk. unfold db_X1_traded.
      rewrite createSale_eq, createPurchase_eq. unfold db_X1, createProduct,
        insert_returning, bump_products. simpl.
      rewrite !lookup_bump, lookup_insert_ne by done. by rewrite lookup_empty. }
  destruct (createProduct_then_lookup db_X1_traded (mkInsertProduct "Y2" 7 None)
              Hwf Hsku) as (H1 & _ & _ & _ & H5 & _).
  split; [exact H1 | exact H5].
Defined.

(** ** Passwords *)

Lemma from_hex_to_hex_byte b s : from_hex (to_hex_byte b s) = b :: from_hex s.
Proof. by destruct b. Qed.

Lemma from_hex_to_hex bs : from_hex (to_hex bs) = bs.
Proof.
  induction bs as [|b bs IH]; [done|].
  cbn [to_hex]. by rewrite from_hex_to_hex_byte, IH.
Qed.

Lemma split_on_to_hex_byte b s :
  split_on full_stop (to_hex_byte b s)
  = (to_hex_byte b (split_on full_stop s).1, (split_on full_stop s).2).
Proof. by destruct b. Qed.

Lemma split_on_to_hex bs : split_on full_stop (to_hex bs) = (to_hex bs, []).
Proof.
  induction bs as [|b bs IH]; [done|].
  cbn [to_hex]. by rewrite split_on_to_hex_byte, IH.
Qed.

Lemma to_hex_append b bs s :
  to_hex (b :: bs) +:+ s = to_hex_byte b (to_hex bs +:+ s).
Proof. done. Qed.

Lemma split_on_stored hashed salt :
  split_on full_stop (to_hex hashed +:+ "." +:+ to_hex salt)
  = (to_hex hashed, [to_hex salt]).
Proof.
  induction hashed as [|b bs IH].
  - change (to_hex [] +:+ "." +:+ to_hex salt)
      with (String full_stop (to_hex salt)).
    cbn [split_on]. by rewrite split_on_to_hex.
  - by rewrite to_hex_append, split_on_to_hex_byte, IH.
Qed.

Lemma split_on_without sep s :
  sep ∉ String.list_ascii_of_string s → split_on sep s = (s, []).
Proof.
  induction s as [|c s IH]; [done|]. cbn [String.list_ascii_of_string split_on].
  intros Hnot. apply not_elem_of_cons in Hnot as [Hne Hnot].
  rewrite (IH Hnot). cbn [fst snd].
  destruct (Ascii.eqb_spec c sep) as [->|_]; done.
Qed.

Lemma comparePasswords_stored scrypt random pw supplied :
  comparePasswords scrypt supplied (hashPassword scrypt random pw)
  = timingSafeEqual (scrypt pw (to_hex random) 64%N)
                    (scrypt supplied (to_hex random) 64%N).
Proof.
  unfold comparePasswords, hashPassword. cbv zeta.
  rewrite split_on_stored. cbn [fst snd]. by rewrite from_hex_to_hex.
Qed.

Lemma comparePasswords_own_hash scrypt random pw :
  comparePasswords scrypt pw (hashPassword scrypt random pw) = Some true.
Proof.
  rewrite comparePasswords_stored. unfold timingSafeEqual.
  rewrite decide_True by done. by rewrite bool_decide_eq_true_2.
Qed.

(** X16. Whatever the key derivation and the random salt,
    [comparePasswords] against the output of [hashPassword] compares the
    key derived from the supplied password under the stored salt with
    the key that was stored, so the password that was hashed is accepted;
    and against a stored value without any "." the comparison throws. *)
Theorem comparePasswords_hashPassword
    (scrypt : string → string → N → list Byte.byte)
    (random : list Byte.byte) (pw supplied : string) :
  comparePasswords scrypt supplied (hashPassword scrypt random pw)
  = timingSafeEqual (scrypt pw (to_hex random) 64%N)
                    (scrypt supplied (to_hex random) 64%N) ∧
  comparePasswords scrypt pw (hashPassword scrypt random pw) = Some true ∧
  (∀ stored, full_stop ∉ String.list_ascii_of_string stored →
             comparePasswords scrypt supplied stored = None).
Proof.
  split_and!.
  - apply comparePasswords_stored.
  - apply comparePasswords_own_hash.
  - intros stored Hnot. unfold comparePasswords. cbv zeta.
    by rewrite split_on_without.
Qed.

Lemma comparePasswords_hashPassword_witness :
  comparePasswords toy_scrypt "secret"
    (hashPassword toy_scrypt [Byte.x0f; Byte.xa0] "secret") = Some true ∧
  comparePasswords toy_scrypt "secret" "secret" = None.
Proof.
  destruct (comparePasswords_hashPassword toy_scrypt [Byte.x0f; Byte.xa0]
              "secret" "secret") as (_ & H2 & H3).
  split; [exact H2|]. apply H3.
  apply (bool_decide_unpack _). by vm_compute.
Defined.

Example hashPassword_text :
  to_hex [Byte.x0f; Byte.xa0] = "0fa0"%string ∧
  from_hex "0FA0zz12" = [Byte.x0f; Byte.xa0] ∧
  split_on full_stop "ab.cd.ef" = ("ab"%string, ["cd"; "ef"]%string) ∧
  comparePasswords toy_scrypt "other!!"
    (hashPassword toy_scrypt [Byte.x0f; Byte.xa0] "secret") = Some false.
Proof. by vm_compute. Qed.

(** ** Registration and login *)

Lemma getUserByUsername_None u us :
  (getUserByUsername u us).1 = None ↔ username_free u us.
Proof.
  unfold getUserByUsername, username_free. cbn [fst].
  rewrite head_None, map_to_list_empty_iff, map_empty_filter. split.
  - intros Hall k x Hk Hu. apply (Hall _ _ Hk). simpl.
    by apply String.eqb_eq.
  - intros Hfree k x Hk Hu. simpl in Hu. apply String.eqb_eq in Hu.
    by apply (Hfree _ _ Hk).
Qed.

Lemma getUserByUsername_Some u us k x :
  (getUserByUsername u us).1 = Some (k, x) →
  rows us !! k = Some x ∧ username x = u.
Proof.
  unfold getUserByUsername. cbn [fst]. intros Hhead.
  apply head_Some_elem_of, elem_of_map_to_list, map_lookup_filter_Some in Hhead.
  destruct Hhead as [Hk Hu]. simpl in Hu. by apply String.eqb_eq in Hu.
Qed.

Lemma getUserByUsername_unique u us k x :
  rows us !! k = Some x → username x = u →
  (∀ j y, rows us !! j = Some y → username y = u → j = k) →
  (getUserByUsername u us).1 = Some (k, x).
Proof.
  intros Hk Hu Honly. unfold getUserByUsername. cbn [fst].
  apply (first_match_unique (λ y, String.eqb (username y) u)); [done|..].
  - by apply String.eqb_eq.
  - intros j y Hj Hy. apply String.eqb_eq in Hy. by eapply Honly.
Qed.

Lemma register_free scrypt random body us :
  username_free (iu_username body) us →
  register scrypt random body us
  = (Json 201 (id_seq us,
               mkUser (iu_username body)
                      (hashPassword scrypt random (iu_password body))
                      (iu_fullName body)
                      (default "salesperson"%string (iu_role body)) true),
     mkTable (<[id_seq us :=
                 mkUser (iu_username body)
                        (hashPassword scrypt random (iu_password body))
                        (iu_fullName body)
                        (default "salesperson"%string (iu_role body)) true]>
                (rows us))
             (id_seq us + 1)).
Proof.
  intros Hfree. apply getUserByUsername_None in Hfree.
  unfold register, mbind, UserTask_bind, mret, UserTask_ret. cbv beta zeta.
  destruct (getUserByUsername (iu_username body) us) as [o us'] eqn:Hget.
  assert (us' = us) as -> by (unfold getUserByUsername in Hget; congruence).
  cbn [fst snd] in *. subst o. done.
Qed.

Lemma register_taken scrypt random body us :
  ¬ username_free (iu_username body) us →
  register scrypt random body us = (Failure 400, us).
Proof.
  intros Htaken.
  unfold register, mbind, UserTask_bind, mret, UserTask_ret. cbv beta zeta.
  destruct (getUserByUsername (iu_username body) us) as [o us'] eqn:Hget.
  assert (us' = us) as -> by (unfold getUserByUsername in Hget; congruence).
  cbn [fst snd]. destruct o as [existing|]; [done|].
  destruct Htaken. apply getUserByUsername_None. by rewrite Hget.
Qed.

(** X17. [POST /api/register] with a username no user has answers 201
    with a new active user whose role is the one in the body
    ("salesperson" when absent, so the user passes [isAdmin] exactly when
    the body says "admin") and whose password is the output of
    [hashPassword]; afterwards the verify callback accepts the username
    with the registered password and returns that user, and the session
    of its key deserializes to it. *)
Theorem registered_user_can_log_in
    (scrypt : string → string → N → list Byte.byte)
    (random : list Byte.byte) (body : InsertUser) (us : Table User) :
  username_free (iu_username body) us →
  let user := mkUser (iu_username body)
                     (hashPassword scrypt random (iu_password body))
                     (iu_fullName body)
                     (default "salesperson"%string (iu_role body)) true in
  let r := register scrypt random body us in
  r.1 = Json 201 (id_seq us, user) ∧
  verify scrypt (iu_username body) (iu_password body) r.2
  = (Authenticated (id_seq us, user), r.2) ∧
  deserializeUser (id_seq us) r.2 = (Some user, r.2) ∧
  (getAllUsers r.2).1 !! id_seq us = Some user ∧
  (isAdmin (Some user) = true ↔ iu_role body = Some "admin"%string).
Proof.
  intros Hfree user r. subst r. rewrite register_free by done. fold user.
  cbn [fst snd]. set (us' := mkTable _ _).
  assert (Hget : getUserByUsername (iu_username body) us'
                 = (Some (id_seq us, user), us')).
  { rewrite (surjective_pairing (getUserByUsername _ us')). f_equal.
    apply getUserByUsername_unique.
    - unfold us'. simpl. by rewrite lookup_insert_eq.
    - done.
    - intros j y Hj Hy. unfold us' in Hj. simpl in Hj.
      destruct (decide (id_seq us = j)) as [|Hne]; [done|].
      rewrite lookup_insert_ne in Hj by done. by destruct (Hfree _ _ Hj). }
  split_and!.
  - done.
  - unfold verify, mbind, UserTask_bind, mret, UserTask_ret. cbv beta zeta.
    rewrite Hget. cbn [fst snd user_isActive user negb password].
    by rewrite comparePasswords_own_hash.
  - unfold deserializeUser, getUser, mbind, UserTask_bind, mret, UserTask_ret.
    cbv beta zeta. cbn [fst snd]. unfold us'. simpl.
    by rewrite lookup_insert_eq.
  - unfold getAllUsers. cbn [fst]. apply map_lookup_filter_Some.
    unfold us'. simpl. by rewrite lookup_insert_eq.
  - unfold isAdmin, user. cbn [role]. rewrite String.eqb_eq.
    destruct (iu_role body) as [ro|]; simpl; [|done].
    split; [by intros -> | by intros [= ->]].
Qed.

Lemma registered_user_can_log_in_witness :
  verify toy_scrypt "ann" "secret" users_ann
  = (Authenticated
       (1, mkUser "ann" (hashPassword toy_scrypt [Byte.x0f; Byte.xa0] "secret")
             "Ann" "salesperson" true),
     users_ann).
Proof.
  apply (registered_user_can_log_in toy_scrypt [Byte.x0f; Byte.xa0]
           (mkInsertUser "ann" "secret" "Ann" None) empty_table).
  intros k x Hk. by vm_compute in Hk.
Defined.

Lemma register_all_snoc scrypt calls call us :
  register_all scrypt (calls ++ [call]) us
  = (register scrypt call.1 call.2 (register_all scrypt calls us)).2.
Proof. unfold register_all. by rewrite foldl_app. Qed.

Lemma register_unique scrypt random body us :
  unique_usernames us → unique_usernames (register scrypt random body us).2.
Proof.
  intros Huniq.
  destruct ((getUserByUsername (iu_username body) us).1) as [[k x]|] eqn:Hget.
  - apply getUserByUsername_Some in Hget as [Hk Hx].
    rewrite register_taken; [done|]. intros Hfree. by apply (Hfree _ _ Hk).
  - apply getUserByUsername_None in Hget. rewrite register_free by done.
    cbn [snd]. intros i j ui uj Hi Hj Hu. simpl in Hi, Hj.
    destruct (decide (id_seq us = i)) as [<-|Hi'],
             (decide (id_seq us = j)) as [<-|Hj']; [done|..].
    + rewrite lookup_insert_eq in Hi. rewrite lookup_insert_ne in Hj by done.
      simplify_eq/=. by destruct (Hget _ _ Hj).
    + rewrite lookup_insert_eq in Hj. rewrite lookup_insert_ne in Hi by done.
      simplify_eq/=. by destruct (Hget _ _ Hi).
    + rewrite lookup_insert_ne in Hi, Hj by done. by eapply Huniq.
Qed.

(** X18. [POST /api/register] answers 400 and changes nothing when a
    user already has the username; and from a table in which usernames
    are unique, every sequence of registrations leaves them unique. *)
Theorem registration_keeps_usernames_unique
    (scrypt : string → string → N → list Byte.byte) (us : Table User) :
  (∀ random body k x,
     rows us !! k = Some x → username x = iu_username body →
     register scrypt random body us = (Failure 400, us)) ∧
  (∀ calls, unique_usernames us →
            unique_usernames (register_all scrypt calls us)).
Proof.
  split.
  - intros random body k x Hk Hx. apply register_taken.
    intros Hfree. by apply (Hfree _ _ Hk).
  - intros calls Huniq. induction calls as [|call calls IH] using rev_ind;
      [done|].
    rewrite register_all_snoc. by apply register_unique.
Qed.

Lemma registration_keeps_usernames_unique_witness :
  register toy_scrypt [Byte.x01] (mkInsertUser "ann" "other" "Ann B" None)
    users_ann
  = (Failure 400, users_ann) ∧
  unique_usernames
    (register_all toy_scrypt
       [([Byte.x01], mkInsertUser "bob" "pw" "Bob" (Some "admin"%string));
        ([Byte.x02], mkInsertUser "ann" "pw" "Ann B" None);
        ([Byte.x03], mkInsertUser "bob" "pw2" "Bob B" None)]
       users_ann).
Proof.
  destruct (registration_keeps_usernames_unique toy_scrypt users_ann)
    as [Htaken Hall].
  split.
  - apply (Htaken _ _ 1 (mkUser "ann"
             (hashPassword toy_scrypt [Byte.x0f; Byte.xa0] "secret")
             "Ann" "salesperson" true)); reflexivity.
  - apply Hall. intros i j ui uj Hi Hj _.
    assert (Hone : ∀ k y, rows users_ann !! k = Some y → k = 1).
    { intros k y Hk. unfold users_ann in Hk.
      rewrite register_free in Hk
        by (intros ? ? Hempty; by vm_compute in Hempty).
      simpl in Hk. destruct (decide (1 = k)) as [|Hne]; [done|].
      rewrite lookup_insert_ne in Hk by done. by rewrite lookup_empty in Hk. }
    by rewrite (Hone _ _ Hi), (Hone _ _ Hj).
Defined.

(** X19. The verify callback never changes the users; it answers
    "Incorrect username." when no user has the name, and when it accepts
    a user that user is stored under the returned key, has the given
    username, is active, and [comparePasswords] answered [true] for its
    stored password.  [deserializeUser] returns only stored, active
    users. *)
Theorem verify_accepts_only_active_matching_users
    (scrypt : string → string → N → list Byte.byte)
    (u pw : string) (us : Table User) :
  (verify scrypt u pw us).2 = us ∧
  (username_free u us →
   (verify scrypt u pw us).1 = Refused "Incorrect username.") ∧
  (∀ k x, (verify scrypt u pw us).1 = Authenticated (k, x) →
     rows us !! k = Some x ∧ username x = u ∧ user_isActive x = true ∧
     comparePasswords scrypt pw (password x) = Some true) ∧
  (∀ k x, (deserializeUser k us).1 = Some x →
     rows us !! k = Some x ∧ user_isActive x = true).
Proof.
  unfold verify, mbind, UserTask_bind, mret, UserTask_ret. cbv beta zeta.
  assert (Hst : (getUserByUsername u us).2 = us) by done. rewrite Hst.
  split_and!.
  - destruct ((getUserByUsername u us).1) as [[k x]|]; [|done].
    cbn [snd]. destruct (user_isActive x); [|done]. cbn [negb].
    by destruct (comparePasswords scrypt pw (password x)) as [[]|].
  - intros Hfree. apply getUserByUsername_None in Hfree. by rewrite Hfree.
  - intros k x.
    destruct ((getUserByUsername u us).1) as [[k' x']|] eqn:Hget; [|done].
    apply getUserByUsername_Some in Hget as [Hk Hx]. cbn [snd].
    destruct (user_isActive x') eqn:Hact; [|done]. cbn [negb].
    destruct (comparePasswords scrypt pw (password x')) as [[]|] eqn:Hcmp;
      [|done..].
    cbn [fst]. intros [= <- <-]. done.
  - intros k x. unfold deserializeUser, getUser, mbind, UserTask_bind, mret,
      UserTask_ret. cbv beta zeta. cbn [fst snd].
    destruct (rows us !! k) as [y|]; [|done].
    destruct (user_isActive y) eqn:Hact; [|done]. cbn [negb fst].
    by intros [= <-].
Qed.

Lemma verify_accepts_only_active_matching_users_witness :
  (verify toy_scrypt "bob" "secret" users_ann).1 = Refused "Incorrect username." ∧
  (verify toy_scrypt "ann" "wrong" users_ann).1 = Refused "Incorrect password.".
Proof.
  split.
  - apply (verify_accepts_only_active_matching_users toy_scrypt "bob" "secret"
             users_ann).
    intros k x Hk. destruct (decide (k = 1)) as [->|Hne].
    + vm_compute in Hk. by simplify_eq.
    + unfold users_ann in Hk. rewrite register_free in Hk
        by (intros ? ? Hempty; by vm_compute in Hempty).
      simpl in Hk. rewrite lookup_insert_ne in Hk by done.
      by rewrite lookup_empty in Hk.
  - by vm_compute.
Defined.
